(** * Alert enrichment pipeline (main.py): a shallow embedding and its properties

    The development follows the layout of [main.py]:
    - Python strings, slices and the two text primitives used by [retrieve]
      ([str.split] on a blank line, [re.findall] of [[a-z0-9]+]);
    - JSON values with Python's truthiness, [dict.get], [str()] and slicing;
    - the functions [retrieve], [extract], [k8s_get], [fetch_pod],
      [fetch_pod_events], [fetch_pod_logs], [summarize_pod] and [recommend],
      the effectful ones in a state-and-exception monad over an explicit
      runtime (token file, HTTP exchange, completion service, storage).

    Characters are the code points below 256, as [ascii]; [str.lower],
    [str.strip] and [repr] are modelled on that range.  JSON numbers are
    integers.  An exception is known by its class, and the error response
    carries the exception in place of its text. *)

From Stdlib Require Import ZArith Lia Ascii String List Sorted Permutation.
From stdpp Require Import base decidable option list strings gmap sets pretty sorting.

Open Scope string_scope.
Open Scope Z_scope.

(** ** Python strings *)

Module PyStr.

Definition newline : ascii := "010"%char.
Definition nl : string := String newline "".

(** [s[:k]] for a non-negative [k]. *)
Fixpoint take (k : Z) (s : string) : string :=
  match s with
  | "" => ""
  | String c r => if k <=? 0 then "" else String c (take (k - 1) r)
  end.

Definition len (s : string) : Z := Z.of_nat (String.length s).

(** [s[:k]]: a negative bound counts from the end of the string. *)
Definition slice_to (k : Z) (s : string) : string :=
  if 0 <=? k then take k s else take (len s + k) s.

(** The code points that [str.lower] moves, all by 32: [A-Z], and the
    Latin-1 capitals [192-222] but for the sign [215]. *)
Definition is_upper (c : ascii) : bool :=
  let n := nat_of_ascii c in
  ((65 <=? n)%nat && (n <=? 90)%nat)
  || ((192 <=? n)%nat && (n <=? 222)%nat && negb (n =? 215)%nat).

Definition is_lower (c : ascii) : bool :=
  let n := nat_of_ascii c in (97 <=? n)%nat && (n <=? 122)%nat.

Definition is_digit (c : ascii) : bool :=
  let n := nat_of_ascii c in (48 <=? n)%nat && (n <=? 57)%nat.

(** The character class [[a-z0-9]]. *)
Definition is_word (c : ascii) : bool := is_lower c || is_digit c.

Definition lower_char (c : ascii) : ascii :=
  if is_upper c then ascii_of_nat (nat_of_ascii c + 32) else c.

(** [s.lower()] *)
Fixpoint lower (s : string) : string :=
  match s with
  | "" => ""
  | String c r => String (lower_char c) (lower r)
  end.

(** [re.findall(r"[a-z0-9]+", s)]: the maximal runs of word characters,
    from left to right.  [cur] is the run being read, reversed. *)
Fixpoint findall_go (cur : string) (s : string) : list string :=
  match s with
  | "" => match cur with "" => [] | _ => [String.rev cur] end
  | String c r =>
      if is_word c then findall_go (String c cur) r
      else match cur with
           | "" => findall_go "" r
           | _ => String.rev cur :: findall_go "" r
           end
  end.

Definition findall (s : string) : list string := findall_go "" s.

(** [s.split("\n\n")]: cut at each blank line, scanning from the left;
    the result always has at least one piece. *)
Fixpoint split_go (cur : string) (s : string) : list string :=
  match s with
  | "" => [String.rev cur]
  | String c r =>
      match r with
      | String c' r' =>
          if Ascii.eqb c newline && Ascii.eqb c' newline
          then String.rev cur :: split_go "" r'
          else split_go (String c cur) r
      | "" => [String.rev (String c cur)]
      end
  end.

Definition split_blank (s : string) : list string := split_go "" s.

(** [sep.join(ls)] *)
Fixpoint join (sep : string) (ls : list string) : string :=
  match ls with
  | [] => ""
  | [x] => x
  | x :: r => x ++ sep ++ join sep r
  end.

(** A string is true when it is not empty. *)
Definition truthy (s : string) : bool :=
  match s with "" => false | _ => true end.

(** [c.isspace()] on the 8-bit range *)
Definition is_space (c : ascii) : bool :=
  let n := nat_of_ascii c in
  ((9 <=? n)%nat && (n <=? 13)%nat) || ((28 <=? n)%nat && (n <=? 32)%nat)
  || (n =? 133)%nat || (n =? 160)%nat.

Fixpoint drop_while (f : ascii -> bool) (s : string) : string :=
  match s with
  | "" => ""
  | String c r => if f c then drop_while f r else s
  end.

Definition rstrip_with (f : ascii -> bool) (s : string) : string :=
  String.rev (drop_while f (String.rev s)).

(** [s.strip()] *)
Definition strip (s : string) : string :=
  rstrip_with is_space (drop_while is_space s).

(** [s.rstrip("/")] *)
Definition rstrip_slash (s : string) : string :=
  rstrip_with (Ascii.eqb "/"%char) s.

(** [s.split("/")] *)
Fixpoint split_slash_go (cur : string) (s : string) : list string :=
  match s with
  | "" => [String.rev cur]
  | String c r =>
      if Ascii.eqb c "/"%char then String.rev cur :: split_slash_go "" r
      else split_slash_go (String c cur) r
  end.

Definition split_slash (s : string) : list string := split_slash_go "" s.

End PyStr.

(** ** Relevance retriever *)

(** [set(re.findall(r"[a-z0-9]+", s.lower()))] *)
Definition tokens (s : string) : gset string :=
  list_to_set (PyStr.findall (PyStr.lower s)).

(** [len(qtok & ctok)] *)
Definition score (qtok : gset string) (chunk : string) : nat :=
  size (qtok ∩ tokens chunk).

(** One turn of the loop of [retrieve] on the pair [(best, best_score)]. *)
Definition retrieve_step (qtok : gset string) (acc : string * nat) (chunk : string)
  : string * nat :=
  let sc := score qtok chunk in
  if (snd acc <? sc)%nat then (chunk, sc) else acc.

Definition retrieve_scan (qtok : gset string) (chunks : list string) : string * nat :=
  foldl (retrieve_step qtok) ("", 0%nat) chunks.

Definition retrieve (runbooks q : string) (max_chars : Z) : string :=
  let qtok := tokens q in
  let best := fst (retrieve_scan qtok (PyStr.split_blank runbooks)) in
  if PyStr.truthy best then PyStr.slice_to max_chars best else "".

Definition retrieve_default (runbooks q : string) : string := retrieve runbooks q 2000.

(** ** Python values

    The values that flow through the pipeline are the ones [json.loads]
    builds: [None], booleans, integers, strings, lists and dicts with string
    keys.  A dict is the list of its items in insertion order; a lookup takes
    the first item that has the key. *)

Fixpoint assoc_get {V : Type} (k : string) (d : list (string * V)) : option V :=
  match d with
  | [] => None
  | (k', v) :: r => if String.eqb k k' then Some v else assoc_get k r
  end.

Definition assoc_mem {V : Type} (k : string) (d : list (string * V)) : bool :=
  match assoc_get k d with Some _ => true | None => false end.

#[warnings="-register-all"]
Inductive json : Type :=
| JNull
| JBool (b : bool)
| JInt (n : Z)
| JStr (s : string)
| JArr (l : list json)
| JObj (d : list (string * json)).

Abbreviation dict := (list (string * json)).

(** Exceptions, by class.  [Failure] is an exception of a collaborator; it
    carries the text [str(e)]. *)
Inductive exn : Type :=
| TypeError
| AttributeError
| KeyError
| IndexError
| OverflowError
| BindError
| Failure (msg : string).

Inductive res (A : Type) : Type :=
| Ok (a : A)
| Raise (e : exn).
Arguments Ok {A} a.
Arguments Raise {A} e.

Definition res_bind {A B : Type} (r : res A) (k : A -> res B) : res B :=
  match r with
  | Ok a => k a
  | Raise e => Raise e
  end.

Notation "'let?' x ':=' e 'in' k" := (res_bind e (fun x => k))
  (at level 10, x pattern, e at level 100, k at level 200).

Module Py.

(** [bool(v)] *)
Definition truthy (v : json) : bool :=
  match v with
  | JNull => false
  | JBool b => b
  | JInt n => negb (n =? 0)
  | JStr s => PyStr.truthy s
  | JArr l => match l with [] => false | _ => true end
  | JObj d => match d with [] => false | _ => true end
  end.

(** [a or b] *)
Definition or_ (a b : json) : json := if truthy a then a else b.

(** [a and b] *)
Definition and_ (a b : json) : json := if truthy a then b else a.

(** [v.get(k, default)]: only a dict has the method. *)
Definition get (v : json) (k : string) (default : json) : res json :=
  match v with
  | JObj d => Ok (match assoc_get k d with Some x => x | None => default end)
  | _ => Raise AttributeError
  end.

(** [v[0]] *)
Definition first (v : json) : res json :=
  match v with
  | JArr l => match l with x :: _ => Ok x | [] => Raise IndexError end
  | JStr s => match s with String c _ => Ok (JStr (String c "")) | "" => Raise IndexError end
  | JObj _ => Raise KeyError
  | _ => Raise TypeError
  end.

(** [v[k]] for a string [k] *)
Definition item (v : json) (k : string) : res json :=
  match v with
  | JObj d => match assoc_get k d with Some x => Ok x | None => Raise KeyError end
  | _ => Raise TypeError
  end.

Definition list_slice_to {A : Type} (k : Z) (l : list A) : list A :=
  if 0 <=? k then take (Z.to_nat k) l
  else take (Z.to_nat (Z.of_nat (length l) + k)) l.

(** [v[:k]]: strings and lists can be sliced; anything else raises (for a
    dict the class is [TypeError] up to Python 3.11). *)
Definition slice_to (k : Z) (v : json) : res json :=
  match v with
  | JStr s => Ok (JStr (PyStr.slice_to k s))
  | JArr l => Ok (JArr (list_slice_to k l))
  | _ => Raise TypeError
  end.

(** [len(v)] *)
Definition len (v : json) : res Z :=
  match v with
  | JStr s => Ok (PyStr.len s)
  | JArr l => Ok (Z.of_nat (length l))
  | JObj d => Ok (Z.of_nat (length d))
  | _ => Raise TypeError
  end.

(** Is [sub] a substring of [s]? *)
Fixpoint substr (sub s : string) : bool :=
  String.prefix sub s ||
  match s with
  | "" => false
  | String _ r => substr sub r
  end.

Definition is_str (k : string) (v : json) : bool :=
  match v with JStr s => String.eqb s k | _ => false end.

(** [k in v] for a string [k] *)
Definition contains (k : string) (v : json) : res bool :=
  match v with
  | JObj d => Ok (assoc_mem k d)
  | JArr l => Ok (existsb (is_str k) l)
  | JStr s => Ok (substr k s)
  | _ => Raise TypeError
  end.

(** [a == b] *)
Fixpoint eq (a b : json) {struct a} : bool :=
  match a, b with
  | JNull, JNull => true
  | JBool x, JBool y => Bool.eqb x y
  | JBool x, JInt n => Z.b2z x =? n
  | JInt n, JBool x => n =? Z.b2z x
  | JInt n, JInt m => n =? m
  | JStr s, JStr t => String.eqb s t
  | JArr l, JArr l' =>
      (fix go (l l' : list json) {struct l} : bool :=
         match l, l' with
         | [], [] => true
         | x :: r, y :: r' => eq x y && go r r'
         | _, _ => false
         end) l l'
  | JObj d, JObj d' =>
      (fix go (d : dict) {struct d} : bool :=
         match d with
         | [] => true
         | (k, v) :: r =>
             match assoc_get k d' with
             | Some v' => eq v v'
             | None => false
             end && go r
         end) d
      && forallb (fun kv => assoc_mem (fst kv) d) d'
  | _, _ => false
  end.

Definition num (v : json) : option Z :=
  match v with
  | JInt n => Some n
  | JBool b => Some (Z.b2z b)
  | _ => None
  end.

(** [a < b]: strings by code point, numbers by value, lists by their first
    unequal items; any other pair is a [TypeError]. *)
Fixpoint lt (a b : json) {struct a} : res bool :=
  match a, b with
  | JStr s, JStr t => Ok (String.ltb s t)
  | JArr l, JArr l' =>
      (fix go (l l' : list json) {struct l} : res bool :=
         match l, l' with
         | x :: r, y :: r' => if eq x y then go r r' else lt x y
         | [], _ :: _ => Ok true
         | _, [] => Ok false
         end) l l'
  | _, _ =>
      match num a, num b with
      | Some n, Some m => Ok (n <? m)
      | _, _ => Raise TypeError
      end
  end.

Definition hex_digit (n : nat) : ascii :=
  if (n <? 10)%nat then ascii_of_nat (48 + n) else ascii_of_nat (87 + n).

Definition backslash : ascii := "092"%char.
Definition squote : ascii := "039"%char.
Definition dquote : ascii := "034"%char.

Fixpoint has_char (c : ascii) (s : string) : bool :=
  match s with
  | "" => false
  | String c' r => Ascii.eqb c c' || has_char c r
  end.

Definition escape (q c : ascii) : string :=
  let n := nat_of_ascii c in
  if Ascii.eqb c q || Ascii.eqb c backslash then String backslash (String c "")
  else if (n =? 9)%nat then String backslash "t"
  else if (n =? 10)%nat then String backslash "n"
  else if (n =? 13)%nat then String backslash "r"
  else if (n <? 32)%nat || (n =? 127)%nat
          || ((128 <=? n)%nat && (n <=? 160)%nat) || (n =? 173)%nat
  then String backslash (String "x" (String (hex_digit (n / 16)) (String (hex_digit (n mod 16)) "")))
  else String c "".

Fixpoint escape_all (q : ascii) (s : string) : string :=
  match s with
  | "" => ""
  | String c r => escape q c ++ escape_all q r
  end.

(** [repr(s)] of a string *)
Definition repr_str (s : string) : string :=
  let q := if has_char squote s && negb (has_char dquote s) then dquote else squote in
  String q (escape_all q s ++ String q "").

(** [repr(v)] *)
Fixpoint repr (v : json) : string :=
  match v with
  | JNull => "None"
  | JBool true => "True"
  | JBool false => "False"
  | JInt n => pretty n
  | JStr s => repr_str s
  | JArr l =>
      "[" ++ PyStr.join ", " ((fix go (l : list json) : list string :=
                                 match l with
                                 | [] => []
                                 | x :: r => repr x :: go r
                                 end) l) ++ "]"
  | JObj d =>
      "{" ++ PyStr.join ", " ((fix go (d : dict) : list string :=
                                 match d with
                                 | [] => []
                                 | (k, x) :: r => (repr_str k ++ ": " ++ repr x) :: go r
                                 end) d) ++ "}"
  end.

(** [str(v)], which is what an f-string field [{v}] prints *)
Definition str (v : json) : string :=
  match v with
  | JStr s => s
  | _ => repr v
  end.

End Py.

(** ** Alert extractor *)

Record alert_info : Type := {
  alertname : json;
  severity : json;
  namespace : json;
  pod : json;
  deployment : json;
  summary : json
}.

(** [d.get(k, d.get(k', default))] on a dict [d]; the inner lookup is
    evaluated first, as an argument. *)
Definition get2 (d : json) (k k' : string) (default : json) : res json :=
  let? inner := Py.get d k' default in
  Py.get d k inner.

Definition extract (payload : dict) : res alert_info :=
  let? al := Py.get (JObj payload) "alerts" JNull in
  let alerts := Py.or_ al (JArr []) in
  let? a := if Py.truthy alerts then Py.first alerts else Ok (JObj []) in
  let? lb := Py.get a "labels" JNull in
  let labels := Py.or_ lb (JObj []) in
  let? an := Py.get a "annotations" JNull in
  let ann := Py.or_ an (JObj []) in
  let? v_alertname := Py.get labels "alertname" (JStr "unknown") in
  let? v_severity := Py.get labels "severity" (JStr "unknown") in
  let? v_namespace := get2 labels "namespace" "kubernetes_namespace" (JStr "unknown") in
  let? v_pod := get2 labels "pod" "pod_name" (JStr "") in
  let? v_deployment := get2 labels "deployment" "kubernetes_deployment" (JStr "") in
  let? s1 := Py.get ann "summary" JNull in
  let? s2 := if Py.truthy s1 then Ok s1 else Py.get ann "description" JNull in
  let? v_summary := Py.slice_to 500 (Py.or_ s2 (JStr "")) in
  Ok {| alertname := v_alertname; severity := v_severity; namespace := v_namespace;
        pod := v_pod; deployment := v_deployment; summary := v_summary |}.

(** ** The runtime the pipeline runs against

    Everything [main.py] reads from outside: the service-account token file,
    the HTTP exchange with the Kubernetes API, the library functions
    [json.loads], [json.dumps] and [urllib.parse.quote], the runbook file, the
    completion service, the storage and the clock.  The token file may be
    missing or unreadable, and [urllib.request.Request] may refuse a URL;
    the runbook file, when it exists, is taken to be readable. *)

Inductive http_failure : Type :=
| NetworkError
| Timeout
| BadStatus (code : Z).

(** A response body, through [decode("utf-8")] ([None] when the bytes are
    not UTF-8) and through [decode("utf-8", errors="ignore")]. *)
Record http_body : Type := {
  utf8_strict : option string;
  utf8_ignore : string
}.

Inductive http_outcome : Type :=
| HttpFail (f : http_failure)
| HttpBody (b : http_body).

Inductive completion_outcome : Type :=
| Completed (output_text : string)
| CompletionFailed (msg : string).

(** [sa_token_file]: [None] when the path does not exist, else the outcome
    of [open(...).read()], the content or an exception.  [request_fault]:
    the exception that [Request(url, headers=...)] raises for a URL, if
    any. *)
Record runtime : Type := {
  sa_token_file : option (res string);
  k8s_api : string;
  request_fault : string -> option exn;
  urlopen : string -> string -> Z -> http_outcome;
  json_loads : string -> option json;
  json_dumps : json -> string;
  json_dumps_indent2 : json -> string;
  url_quote : string -> string;
  runbooks_file : option string;
  openai_model : option string;
  completion : string -> string -> string -> completion_outcome;
  storage_fault : option exn;
  now : Z
}.

Inductive query_kind : Type := QPod | QEvents | QLogs.

(** What the Cluster Evidence Client did: a call of one of its three
    functions, or an HTTP request sent to the API. *)
Inductive k8s_event : Type :=
| Invoke (q : query_kind) (ns name : json)
| Request (url : string).

Inductive metric : Type :=
| ReqTotal (status : string)
| LatObserve
| OpenaiTotal (status : string)
| K8sTotal (kind status : string).

Record evidence : Type := {
  pod_summary : string;
  events : list json;
  logs_tail : string
}.

Record row : Type := {
  r_ts : Z;
  r_alert : alert_info;
  r_recommendation : string;
  r_k8s_context : string;
  r_raw_json : string
}.

Record state : Type := {
  trace : list k8s_event;
  metrics : list metric;
  rows : list row
}.

Definition M (A : Type) : Type := state -> res A * state.

Definition ret {A : Type} (a : A) : M A := fun s => (Ok a, s).

Definition bind {A B : Type} (m : M A) (k : A -> M B) : M B :=
  fun s => match m s with
           | (Ok a, s') => k a s'
           | (Raise e, s') => (Raise e, s')
           end.

Definition lift {A : Type} (r : res A) : M A := fun s => (r, s).

Notation "x <- m ;; k" := (bind m (fun x => k))
  (at level 100, m at next level, right associativity).
Notation "m ;;; k" := (bind m (fun _ => k))
  (at level 100, right associativity).

Definition emit (e : k8s_event) : M unit :=
  fun s => (Ok tt, {| trace := trace s ++ [e]; metrics := metrics s; rows := rows s |}).

Definition inc (m : metric) : M unit :=
  fun s => (Ok tt, {| trace := trace s; metrics := metrics s ++ [m]; rows := rows s |}).

Definition store (r : row) : M unit :=
  fun s => (Ok tt, {| trace := trace s; metrics := metrics s; rows := rows s ++ [r] |}).

(** ** Cluster evidence client *)

Section Client.

Variable rt : runtime.

(** [urllib.request.Request(url, headers=...)], kept or refused. *)
Definition build_request (url : string) : res unit :=
  match request_fault rt url with
  | Some e => Raise e
  | None => Ok tt
  end.

(** [path.split("/")[1] if path.startswith("/api/") else "get"] *)
Definition kind_of_path (path : string) : string :=
  if String.prefix "/api/" path
  then match PyStr.split_slash path with
       | _ :: k :: _ => k
       | _ => ""
       end
  else "get".

Definition k8s_get (path : string) (timeout : Z) : M json :=
  match sa_token_file rt with
  | None => ret JNull
  | Some read =>
      raw <- lift read ;;
      let token := PyStr.strip raw in
      let url := PyStr.rstrip_slash (k8s_api rt) ++ path in
      lift (build_request url) ;;;
      emit (Request url) ;;;
      match urlopen rt url ("Bearer " ++ token) timeout with
      | HttpBody b =>
          match utf8_strict b with
          | Some text =>
              match json_loads rt text with
              | Some data => inc (K8sTotal (kind_of_path path) "success") ;;; ret data
              | None => inc (K8sTotal (kind_of_path path) "error") ;;; ret JNull
              end
          | None => inc (K8sTotal (kind_of_path path) "error") ;;; ret JNull
          end
      | HttpFail _ => inc (K8sTotal (kind_of_path path) "error") ;;; ret JNull
      end
  end.

(** [urllib.parse.quote(v)]: anything but a string is refused. *)
Definition quote (v : json) : res string :=
  match v with
  | JStr s => Ok (url_quote rt s)
  | _ => Raise TypeError
  end.

Definition fetch_pod (ns name : json) : M json :=
  emit (Invoke QPod ns name) ;;;
  if negb (Py.truthy (Py.and_ ns name)) then ret JNull
  else
    qn <- lift (quote ns) ;;
    qp <- lift (quote name) ;;
    k8s_get ("/api/v1/namespaces/" ++ qn ++ "/pods/" ++ qp) 5.

(** The sort key [ts(e)] of [fetch_pod_events]. *)
Definition ts (e : json) : res json :=
  let? a := Py.get e "lastTimestamp" JNull in
  if Py.truthy a then Ok a
  else
    let? b := Py.get e "eventTime" JNull in
    if Py.truthy b then Ok b
    else
      let? c := Py.get e "firstTimestamp" JNull in
      Ok (Py.or_ c (JStr "")).

Fixpoint keyed (items : list json) : res (list (json * json)) :=
  match items with
  | [] => Ok []
  | e :: r =>
      let? k := ts e in
      let? kr := keyed r in
      Ok ((k, e) :: kr)
  end.

(** Stable insertion for a descending order: [x] stood before every item
    of [l] in the input, so it passes exactly the items with a key
    strictly greater than its own. *)
Fixpoint insert_desc (x : json * json) (l : list (json * json)) : res (list (json * json)) :=
  match l with
  | [] => Ok [x]
  | y :: r =>
      let? below := Py.lt (fst x) (fst y) in
      if below then (let? r' := insert_desc x r in Ok (y :: r'))
      else Ok (x :: y :: r)
  end.

Fixpoint sort_desc (l : list (json * json)) : res (list (json * json)) :=
  match l with
  | [] => Ok []
  | x :: r =>
      let? r' := sort_desc r in
      insert_desc x r'
  end.

(** [items.sort(key=ts, reverse=True)]: the keys are computed first, then
    the items are put in descending key order, equal keys keeping their
    input order.  Only a list has the method. *)
Definition sort_items (items : json) : res (list json) :=
  match items with
  | JArr l =>
      let? kl := keyed l in
      let? sorted := sort_desc kl in
      Ok (map snd sorted)
  | _ => Raise AttributeError
  end.

(** The record appended to [out] for the event [e]. *)
Definition event_record (e : json) : res json :=
  let? t := Py.get e "type" (JStr "") in
  let? r := Py.get e "reason" (JStr "") in
  let? m := Py.get e "message" (JStr "") in
  let? m' := Py.slice_to 300 (Py.or_ m (JStr "")) in
  let? c := Py.get e "count" (JInt 1) in
  let? l := ts e in
  Ok (JObj [("type", t); ("reason", r); ("message", m'); ("count", c); ("lastTimestamp", l)]).

Fixpoint event_records (l : list json) : res (list json) :=
  match l with
  | [] => Ok []
  | e :: r =>
      let? x := event_record e in
      let? xr := event_records r in
      Ok (x :: xr)
  end.

Definition fetch_pod_events (ns name : json) (max_items : Z) : M (list json) :=
  emit (Invoke QEvents ns name) ;;;
  if negb (Py.truthy (Py.and_ ns name)) then ret []
  else
    let qs := "fieldSelector="
              ++ url_quote rt ("involvedObject.kind=Pod,involvedObject.name=" ++ Py.str name) in
    qn <- lift (quote ns) ;;
    data <- k8s_get ("/api/v1/namespaces/" ++ qn ++ "/events?" ++ qs) 5 ;;
    it <- lift (Py.get (Py.or_ data (JObj [])) "items" JNull) ;;
    sorted <- lift (sort_items (Py.or_ it (JArr []))) ;;
    lift (event_records (Py.list_slice_to max_items sorted)).

Definition fetch_pod_logs (ns name : json) (tail : Z) : M string :=
  emit (Invoke QLogs ns name) ;;;
  if negb (Py.truthy (Py.and_ ns name)) then ret ""
  else
    match sa_token_file rt with
    | None => ret ""
    | Some read =>
        raw <- lift read ;;
        let token := PyStr.strip raw in
        qn <- lift (quote ns) ;;
        qp <- lift (quote name) ;;
        let url := PyStr.rstrip_slash (k8s_api rt)
                   ++ "/api/v1/namespaces/" ++ qn ++ "/pods/" ++ qp
                   ++ "/log?tailLines=" ++ pretty tail in
        lift (build_request url) ;;;
        emit (Request url) ;;;
        match urlopen rt url ("Bearer " ++ token) 6 with
        | HttpBody b => ret (PyStr.slice_to 4000 (utf8_ignore b))
        | HttpFail _ => ret ""
        end
    end.

End Client.

(** ** Resource state summarizer *)

(** [lines.append(x)] *)
Definition append {A : Type} (lines : list A) (x : A) : list A := app lines [x].

(** The two lines appended for a [terminated] entry [t] under [prefix]. *)
Definition terminated_lines (prefix : string) (t : json) : res (list string) :=
  let? r := Py.get t "reason" (JStr "") in
  let? c := Py.get t "exitCode" (JStr "") in
  Ok [prefix ++ ".terminated.reason=" ++ Py.str r;
      prefix ++ ".terminated.exitCode=" ++ Py.str c].

(** The body of [if cs:], from the lines collected so far. *)
Definition container_lines (cs : json) (lines : list string) : res (list string) :=
  let? c0 := Py.first cs in
  let? nm := Py.get c0 "name" (JStr "") in
  let lines := append lines ("container=" ++ Py.str nm) in
  let? rc := Py.get c0 "restartCount" (JInt 0) in
  let lines := append lines ("restartCount=" ++ Py.str rc) in
  let? st0 := Py.get c0 "state" JNull in
  let state := Py.or_ st0 (JObj []) in
  let? la0 := Py.get c0 "lastState" JNull in
  let last := Py.or_ la0 (JObj []) in
  let? has_w := Py.contains "waiting" state in
  let? lines :=
    if has_w then
      let? w := Py.item state "waiting" in
      let? r := Py.get w "reason" (JStr "") in
      let lines := append lines ("state.waiting.reason=" ++ Py.str r) in
      let? m := Py.get w "message" (JStr "") in
      let? m' := Py.slice_to 200 (Py.or_ m (JStr "")) in
      Ok (append lines ("state.waiting.message=" ++ Py.str m'))
    else Ok lines in
  let? has_t := Py.contains "terminated" state in
  let? lines :=
    if has_t then
      let? t := Py.item state "terminated" in
      let? tl := terminated_lines "state" t in
      Ok (app lines tl)
    else Ok lines in
  let? has_l := Py.contains "terminated" last in
  if has_l then
    let? t := Py.item last "terminated" in
    let? tl := terminated_lines "last" t in
    Ok (app lines tl)
  else Ok lines.

(** The list [lines] of [summarize_pod] for a pod object that is true. *)
Definition summary_lines (pod_obj : json) : res (list string) :=
  let? st0 := Py.get pod_obj "status" JNull in
  let st := Py.or_ st0 (JObj []) in
  let? cs0 := Py.get st "containerStatuses" JNull in
  let cs := Py.or_ cs0 (JArr []) in
  let? ph := Py.get st "phase" (JStr "") in
  let lines := ["phase=" ++ Py.str ph] in
  if Py.truthy cs then container_lines cs lines else Ok lines.

Definition summarize_pod (pod_obj : json) : res string :=
  if negb (Py.truthy pod_obj) then Ok "(pod not fetched)"
  else
    let? lines := summary_lines pod_obj in
    Ok (PyStr.slice_to 2000 (PyStr.join PyStr.nl lines)).

(** ** The request handler *)

Inductive response : Type :=
| RespOk (alert : alert_info) (k8s_context : evidence) (recommendation : string)
| RespError (e : exn).

Definition evidence_json (ev : evidence) : json :=
  JObj [("pod_summary", JStr (pod_summary ev));
        ("events", JArr (events ev));
        ("logs_tail", JStr (logs_tail ev))].

Definition system_prompt : string :=
  "You are a Kubernetes SRE assistant. Provide safe, step-by-step troubleshooting guidance. "
  ++ "No self-healing actions. Use the provided Kubernetes evidence (pod status/events/logs) to be specific. "
  ++ "Include kubectl commands and what to validate in Prometheus/Grafana.".

(** What sqlite3 accepts as a parameter: [None], integers that fit 64 bits
    and strings. *)
Definition bind_param (v : json) : res unit :=
  match v with
  | JArr _ | JObj _ => Raise BindError
  | JInt n => if (- 2 ^ 63 <=? n) && (n <? 2 ^ 63) then Ok tt else Raise OverflowError
  | _ => Ok tt
  end.

Section Handler.

Variable rt : runtime.

Definition load_runbooks : string :=
  match runbooks_file rt with
  | Some text => text
  | None => ""
  end.

(** Lines 175-178: the three queries, made only when the alert names a pod. *)
Definition gather (info : alert_info) : M (string * list json * string) :=
  pod_obj <- (if Py.truthy (pod info) then fetch_pod rt (namespace info) (pod info)
              else ret JNull) ;;
  evs <- (if Py.truthy (pod info) then fetch_pod_events rt (namespace info) (pod info) 15
          else ret []) ;;
  logs <- (if Py.truthy (pod info) then fetch_pod_logs rt (namespace info) (pod info) 80
           else ret "") ;;
  psum <- lift (summarize_pod pod_obj) ;;
  ret (psum, evs, logs).

Definition runbook_query (info : alert_info) : string :=
  Py.str (alertname info) ++ " " ++ Py.str (summary info) ++ " "
  ++ Py.str (namespace info) ++ " " ++ Py.str (severity info) ++ " "
  ++ Py.str (pod info).

Definition user_prompt (info : alert_info) (psum : string) (evs : list json)
    (logs ctx : string) : string :=
  let n := PyStr.nl in
  "Alert:" ++ n
  ++ "- alertname: " ++ Py.str (alertname info) ++ n
  ++ "- severity: " ++ Py.str (severity info) ++ n
  ++ "- namespace: " ++ Py.str (namespace info) ++ n
  ++ "- pod: " ++ Py.str (pod info) ++ n
  ++ "- deployment: " ++ Py.str (deployment info) ++ n
  ++ "- summary: " ++ Py.str (summary info) ++ n
  ++ n
  ++ "Kubernetes evidence (most important):" ++ n
  ++ "Pod summary:" ++ n
  ++ psum ++ n
  ++ n
  ++ "Recent events (newest first):" ++ n
  ++ (match evs with
      | [] => "(no events or no pod label provided)"
      | _ => json_dumps_indent2 rt (JArr evs)
      end) ++ n
  ++ n
  ++ "Log tail:" ++ n
  ++ (if PyStr.truthy logs then logs else "(no logs or no pod label provided)") ++ n
  ++ n
  ++ "Runbook context:" ++ n
  ++ (if PyStr.truthy ctx then ctx else "(no matching runbook snippet)") ++ n
  ++ n
  ++ "Return:" ++ n
  ++ "1) Probable cause (based on evidence)" ++ n
  ++ "2) Immediate checks (commands)" ++ n
  ++ "3) Mitigation steps" ++ n
  ++ "4) What confirms recovery" ++ n.

(** [os.getenv("OPENAI_MODEL", "gpt-4.1-mini")] *)
Definition model_name : string :=
  match openai_model rt with
  | Some m => m
  | None => "gpt-4.1-mini"
  end.

(** Lines 217-224: the completion call, with its own handler. *)
Definition complete (user : string) : M string :=
  match completion rt model_name system_prompt user with
  | Completed text => inc (OpenaiTotal "success") ;;; ret text
  | CompletionFailed msg => inc (OpenaiTotal "error") ;;; ret ("OpenAI call failed: " ++ msg)
  end.

(** Lines 232-240: open the storage and insert the record.  A storage fault
    strikes before the row is written; a parameter that sqlite3 refuses
    leaves no row either. *)
Definition persist (payload : dict) (info : alert_info) (text : string)
    (ctx : evidence) : M unit :=
  match storage_fault rt with
  | Some e => lift (Raise e)
  | None =>
      let k8s_text := PyStr.slice_to 200000 (json_dumps rt (evidence_json ctx)) in
      let raw_text := PyStr.slice_to 200000 (json_dumps rt (JObj payload)) in
      lift (bind_param (alertname info)) ;;;
      lift (bind_param (severity info)) ;;;
      lift (bind_param (namespace info)) ;;;
      lift (bind_param (pod info)) ;;;
      lift (bind_param (deployment info)) ;;;
      lift (bind_param (summary info)) ;;;
      store {| r_ts := now rt; r_alert := info; r_recommendation := text;
               r_k8s_context := k8s_text; r_raw_json := raw_text |}
  end.

(** The body of the outer [try]. *)
Definition recommend_body (payload : dict) : M response :=
  info <- lift (extract payload) ;;
  let runbooks := load_runbooks in
  g <- gather info ;;
  let '(psum, evs, logs) := g in
  let ctx := retrieve runbooks (runbook_query info) 2000 in
  text <- complete (user_prompt info psum evs logs ctx) ;;
  let k8s_context := {| pod_summary := psum; events := evs;
                        logs_tail := PyStr.slice_to 4000 logs |} in
  persist payload info text k8s_context ;;;
  inc (ReqTotal "success") ;;;
  inc LatObserve ;;;
  ret (RespOk info k8s_context text).

(** [recommend]: whatever the body raises becomes an error response. *)
Definition recommend (payload : dict) (s : state) : response * state :=
  match recommend_body payload s with
  | (Ok r, s') => (r, s')
  | (Raise e, s') =>
      match (inc (ReqTotal "error") ;;; inc LatObserve) s' with
      | (_, s'') => (RespError e, s'')
      end
  end.

End Handler.

(** * Vocabulary of the statements

    Default values, typed views of the JSON objects the pipeline reads, the
    failure cases of a request, and the sample runtimes and inputs on which
    the statements are run. *)

(** [q'] is [q] with the case of some letters changed. *)
Inductive case_variant : string -> string -> Prop :=
| cv_nil : case_variant "" ""
| cv_cons (c c' : ascii) (s s' : string) :
    PyStr.lower_char c = PyStr.lower_char c' ->
    case_variant s s' ->
    case_variant (String c s) (String c' s').

(** [q'] has the tokens of [q], some of them more than once. *)
Definition same_tokens_repeated (q q' : string) : Prop :=
  forall t, t ∈ PyStr.findall (PyStr.lower q) <-> t ∈ PyStr.findall (PyStr.lower q').

(** ** The retriever, in the words of its description

    Passages are the blocks that blank lines delimit; a token is a maximal
    run of ASCII letters and digits of the text lower-cased by [str.lower];
    the score of a passage is the number of distinct tokens it shares with
    the query.  None of these is stated through [PyStr.split_blank],
    [PyStr.findall], [tokens] or [score]. *)

(** A blank line: two line ends in a row. *)
Definition blank_line : string := PyStr.nl ++ PyStr.nl.

Definition blank_line_in (s : string) : Prop := exists a b, s = a ++ blank_line ++ b.

(** The passages of a corpus, in order: the last one has no blank line, and
    every other one ends at the first blank line after its start. *)
Inductive passages : string -> list string -> Prop :=
| passages_last (p : string) : ~ blank_line_in p -> passages p [p]
| passages_cut (p rest : string) (more : list string) :
    ~ blank_line_in (p ++ PyStr.nl) ->
    passages rest more ->
    passages (p ++ blank_line ++ rest) (p :: more).

(** An ASCII letter or digit. *)
Definition ascii_alnum (c : ascii) : bool :=
  let n := nat_of_ascii c in
  ((48 <=? n)%nat && (n <=? 57)%nat)
  || ((65 <=? n)%nat && (n <=? 90)%nat)
  || ((97 <=? n)%nat && (n <=? 122)%nat).

Fixpoint all_alnum (s : string) : bool :=
  match s with
  | "" => true
  | String c r => ascii_alnum c && all_alnum r
  end.

Definition first_char (s : string) : option ascii :=
  match s with
  | "" => None
  | String c _ => Some c
  end.

Fixpoint last_char (s : string) : option ascii :=
  match s with
  | "" => None
  | String c "" => Some c
  | String _ r => last_char r
  end.

(** No character, or one that is not a letter or digit. *)
Definition not_alnum (o : option ascii) : bool :=
  match o with
  | Some c => negb (ascii_alnum c)
  | None => true
  end.

(** [t] is a maximal run of letters and digits of [s]: a non-empty stretch
    of them that no letter or digit precedes or follows. *)
Definition maximal_run (t s : string) : Prop :=
  exists a b,
    s = a ++ t ++ b /\ t <> "" /\ all_alnum t = true
    /\ not_alnum (last_char a) = true /\ not_alnum (first_char b) = true.

(** [t] is a token of the text [s]. *)
Definition token_of (t s : string) : Prop := maximal_run t (PyStr.lower s).

(** The query [q] and the passage [p] share exactly [n] distinct tokens. *)
Definition shared_tokens (q p : string) (n : nat) : Prop :=
  exists common : list string,
    NoDup common
    /\ (forall t, t ∈ common <-> token_of t q /\ token_of t p)
    /\ length common = n.

(** The number of characters that the bound [k] keeps of [p]: at most [k]
    from the start, and for a negative [k] all but the last [-k]. *)
Definition kept (k : Z) (p : string) : Z :=
  if 0 <=? k then Z.min k (PyStr.len p) else Z.max 0 (PyStr.len p + k).

(** [out] is [p] cut to the bound [k]: the prefix of [p] of that length. *)
Definition cut_to (k : Z) (p out : string) : Prop :=
  exists rest, p = out ++ rest /\ PyStr.len out = kept k p.

(** The record of an alert that carries nothing. *)
Definition default_alert : alert_info :=
  {| alertname := JStr "unknown"; severity := JStr "unknown"; namespace := JStr "unknown";
     pod := JStr ""; deployment := JStr ""; summary := JStr "" |}.

(** The value of key [k] in [d], or [default]. *)
Definition field (d : dict) (k : string) (default : json) : json :=
  match assoc_get k d with
  | Some v => v
  | None => default
  end.

(** What [summarize_pod] reads from a pod object: the [status] dict and, when
    a container is reported, the first container status with its [waiting],
    [terminated] and previous [terminated] entries, each present or not. *)
Record container_view : Type := {
  cv_fields : dict;
  cv_waiting : option dict;
  cv_terminated : option dict;
  cv_last_terminated : option dict
}.

Record pod_view : Type := {
  pv_status : dict;
  pv_container : option container_view
}.

Definition as_dict (v : json) : option dict :=
  match v with
  | JObj d => Some d
  | _ => None
  end.

(** [v or {}], when that is a dict *)
Definition dict_or_empty (v : json) : option dict := as_dict (Py.or_ v (JObj [])).

(** The entry [k] of [d]: absent, or a dict. *)
Definition entry (d : dict) (k : string) : option (option dict) :=
  match assoc_get k d with
  | None => Some None
  | Some (JObj w) => Some (Some w)
  | Some _ => None
  end.

(** [(w.get("message", "") or "")[:200]] *)
Definition waiting_message (w : dict) : res json :=
  Py.slice_to 200 (Py.or_ (field w "message" (JStr "")) (JStr "")).

Definition container_view_of (c0 : json) : option container_view :=
  c ← as_dict c0;
  sd ← dict_or_empty (field c "state" JNull);
  ld ← dict_or_empty (field c "lastState" JNull);
  w ← entry sd "waiting";
  t ← entry sd "terminated";
  l ← entry ld "terminated";
  match w with
  | Some wd => match waiting_message wd with Ok _ => Some tt | Raise _ => None end
  | None => Some tt
  end;;
  Some {| cv_fields := c; cv_waiting := w; cv_terminated := t; cv_last_terminated := l |}.

Definition view_of (pod_obj : json) : option pod_view :=
  if Py.truthy pod_obj then
    p ← as_dict pod_obj;
    st ← dict_or_empty (field p "status" JNull);
    match Py.or_ (field st "containerStatuses" JNull) (JArr []) with
    | JArr [] => Some {| pv_status := st; pv_container := None |}
    | JArr (c0 :: _) =>
        c ← container_view_of c0;
        Some {| pv_status := st; pv_container := Some c |}
    | _ => None
    end
  else None.

(** One line of the summary, [label=value]. *)
Definition render (label : string) (v : json) : string := label ++ "=" ++ Py.str v.

(** The lines of a block: none when its entry is absent. *)
Definition block {A : Type} (o : option A) (f : A -> list string) : list string :=
  match o with
  | Some a => f a
  | None => []
  end.

Definition ok_or {A : Type} (r : res A) (a : A) : A :=
  match r with
  | Ok x => x
  | Raise _ => a
  end.

(** The lines of the summary: the phase line always; the lines of a block
    only when its entry is present; inside a block every line, an absent
    field printed as its default. *)
Definition spec_lines (v : pod_view) : list string :=
  render "phase" (field (pv_status v) "phase" (JStr ""))
  :: block (pv_container v) (fun c =>
       [render "container" (field (cv_fields c) "name" (JStr ""));
        render "restartCount" (field (cv_fields c) "restartCount" (JInt 0))]
       ++ block (cv_waiting c) (fun w =>
            [render "state.waiting.reason" (field w "reason" (JStr ""));
             render "state.waiting.message" (ok_or (waiting_message w) (JStr ""))])
       ++ block (cv_terminated c) (fun t =>
            [render "state.terminated.reason" (field t "reason" (JStr ""));
             render "state.terminated.exitCode" (field t "exitCode" (JStr ""))])
       ++ block (cv_last_terminated c) (fun t =>
            [render "last.terminated.reason" (field t "reason" (JStr ""));
             render "last.terminated.exitCode" (field t "exitCode" (JStr ""))]))%list.

(** The evidence of an alert that names no pod. *)
Definition no_evidence : evidence :=
  {| pod_summary := "(pod not fetched)"; events := []; logs_tail := "" |}.

(** sqlite3 accepts the six alert fields as parameters. *)
Definition bindable (info : alert_info) : bool :=
  forallb (fun v => match bind_param v with Ok _ => true | Raise _ => false end)
    [alertname info; severity info; namespace info; pod info; deployment info; summary info].

(** The row that [recommend] inserts. *)
Definition row_of (rt : runtime) (payload : dict) (info : alert_info) (text : string)
    (ctx : evidence) : row :=
  {| r_ts := now rt; r_alert := info; r_recommendation := text;
     r_k8s_context := PyStr.slice_to 200000 (json_dumps rt (evidence_json ctx));
     r_raw_json := PyStr.slice_to 200000 (json_dumps rt (JObj payload)) |}.

Definition with_metrics (s : state) (ms : list metric) : state :=
  {| trace := trace s; metrics := metrics s ++ ms; rows := rows s |}.

Definition with_row (s : state) (r : row) : state :=
  {| trace := trace s; metrics := metrics s; rows := rows s ++ [r] |}.

(** A runtime with no token file, no runbook file and a completion service
    that is down; the storage works. *)
Definition offline_rt : runtime :=
  {| sa_token_file := None;
     k8s_api := "https://kubernetes.default.svc";
     request_fault := fun _ => None;
     urlopen := fun _ _ _ => HttpFail NetworkError;
     json_loads := fun _ => None;
     json_dumps := Py.repr;
     json_dumps_indent2 := Py.repr;
     url_quote := fun s => s;
     runbooks_file := None;
     openai_model := None;
     completion := fun _ _ _ => CompletionFailed "connection refused";
     storage_fault := None;
     now := 1700000000 |}.

Definition fresh : state := {| trace := []; metrics := []; rows := [] |}.




Definition api_base (rt : runtime) : string := PyStr.rstrip_slash (k8s_api rt).




(** A runtime with a token whose every request times out. *)
Definition unreachable_rt : runtime :=
  {| sa_token_file := Some (Ok ("token-1" ++ PyStr.nl));
     k8s_api := "https://kubernetes.default.svc/";
     request_fault := fun _ => None;
     urlopen := fun _ _ _ => HttpFail Timeout;
     json_loads := fun _ => None;
     json_dumps := Py.repr;
     json_dumps_indent2 := Py.repr;
     url_quote := fun s => s;
     runbooks_file := None;
     openai_model := None;
     completion := fun _ _ _ => Completed "check the pod";
     storage_fault := None;
     now := 1700000000 |}.

Definition web_alert : alert_info :=
  {| alertname := JStr "CrashLoop"; severity := JStr "critical"; namespace := JStr "prod";
     pod := JStr "web-1"; deployment := JStr ""; summary := JStr "" |}.

Definition text_or_null (o : option json) : bool :=
  match o with
  | None | Some JNull | Some (JStr _) => true
  | Some _ => false
  end.

(** An event as the API lists it: an object whose timestamps and message
    are strings, [null] or absent. *)
Definition event_ok (e : json) : bool :=
  match e with
  | JObj d =>
      text_or_null (assoc_get "lastTimestamp" d)
      && text_or_null (assoc_get "eventTime" d)
      && text_or_null (assoc_get "firstTimestamp" d)
      && text_or_null (assoc_get "message" d)
  | _ => false
  end.

(** The text under [k], empty when [k] is absent or [null]. *)
Definition stamp (d : dict) (k : string) : string :=
  match assoc_get k d with
  | Some (JStr t) => t
  | _ => ""
  end.

(** The recency key: [lastTimestamp], else [eventTime], else
    [firstTimestamp], else the empty string. *)
Definition recency (e : json) : string :=
  match e with
  | JObj d =>
      if PyStr.truthy (stamp d "lastTimestamp") then stamp d "lastTimestamp"
      else if PyStr.truthy (stamp d "eventTime") then stamp d "eventTime"
      else stamp d "firstTimestamp"
  | _ => ""
  end.

(** The record built for a listed event. *)
Definition listed_record (e : json) : json :=
  match e with
  | JObj d =>
      JObj [("type", field d "type" (JStr ""));
            ("reason", field d "reason" (JStr ""));
            ("message", JStr (PyStr.slice_to 300 (stamp d "message")));
            ("count", field d "count" (JInt 1));
            ("lastTimestamp", JStr (recency e))]
  | _ => JNull
  end.

(** [a] may stand before [b]: the key of [a] is not below the key of [b]
    in the order of strings, which compares code points from the left. *)
Definition key_descending (a b : json) : Prop := String.le (recency b) (recency a).

Definition with_key (e : json) : json * json := (JStr (recency e), e).

(** The text of [lastTimestamp] in an output record. *)
Definition record_stamp (r : json) : string :=
  match r with
  | JObj d => stamp d "lastTimestamp"
  | _ => ""
  end.

(** Three events of a pod, stamped through [lastTimestamp], [eventTime] and
    [firstTimestamp]. *)
Definition three_events : list json :=
  [JObj [("lastTimestamp", JStr "2024-05-01T10:00:00Z"); ("reason", JStr "Pulled")];
   JObj [("lastTimestamp", JNull); ("eventTime", JStr "2024-05-01T12:00:00.000000Z");
         ("reason", JStr "BackOff"); ("message", JStr "Back-off restarting failed container")];
   JObj [("firstTimestamp", JStr "2024-05-01T11:00:00Z"); ("reason", JStr "Started");
         ("count", JInt 3)]].

(** A runtime whose API lists them, whatever the request. *)
Definition listing_rt : runtime :=
  {| sa_token_file := Some (Ok "token-1");
     k8s_api := "https://kubernetes.default.svc";
     request_fault := fun _ => None;
     urlopen := fun _ _ _ => HttpBody {| utf8_strict := Some "{...}"; utf8_ignore := "{...}" |};
     json_loads := fun _ => Some (JObj [("kind", JStr "EventList"); ("items", JArr three_events)]);
     json_dumps := Py.repr;
     json_dumps_indent2 := Py.repr;
     url_quote := fun s => s;
     runbooks_file := None;
     openai_model := None;
     completion := fun _ _ _ => Completed "check the pod";
     storage_fault := None;
     now := 1700000000 |}.




(** [len(v)] is defined and at most [k]. *)
Definition len_within (k : Z) (v : json) : Prop :=
  exists n, Py.len v = Ok n /\ n <= k.

(** The record [r] has a [message] of length at most [k]. *)
Definition message_within (k : Z) (r : json) : Prop :=
  exists m, Py.get r "message" JNull = Ok m /\ len_within k m.

Definition crashloop_payload : dict :=
  [("alerts",
    JArr [JObj [("labels", JObj [("alertname", JStr "CrashLoop"); ("severity", JStr "critical");
                                 ("namespace", JStr "prod"); ("pod", JStr "web-1")]);
                ("annotations", JObj [("summary", JStr "web-1 is restarting")])]])].

Definition waiting_pod : json :=
  JObj [("status",
         JObj [("phase", JStr "Running");
               ("containerStatuses",
                JArr [JObj [("name", JStr "web"); ("restartCount", JInt 7);
                            ("state", JObj [("waiting",
                                             JObj [("reason", JStr "CrashLoopBackOff")])])]])])].

Definition runbook_text : string :=
  "CrashLoopBackOff: read the previous logs of the pod" ++ PyStr.nl ++ PyStr.nl
  ++ "OOMKilled: raise the memory limit".

(** ** Vocabulary of the further properties *)

Definition is_text (v : json) : bool :=
  match v with
  | JStr _ => true
  | _ => false
  end.

(** Every value of [d] is a string. *)
Definition all_text (d : dict) : bool := forallb (fun kv => is_text (snd kv)) d.

Definition alert_is_text (info : alert_info) : bool :=
  forallb is_text
    [alertname info; severity info; namespace info; pod info; deployment info; summary info].

(** The [summary] annotation when it is a non-empty text, else the
    [description] one. *)
Definition summary_text (ann : dict) : string :=
  if PyStr.truthy (stamp ann "summary") then stamp ann "summary" else stamp ann "description".

(** The record of an alert with the labels [labels] and the annotations
    [ann]: a label is replaced by its synonym, then by its default, only
    when its key is absent. *)
Definition alert_of (labels ann : dict) : alert_info :=
  {| alertname := field labels "alertname" (JStr "unknown");
     severity := field labels "severity" (JStr "unknown");
     namespace := field labels "namespace" (field labels "kubernetes_namespace" (JStr "unknown"));
     pod := field labels "pod" (field labels "pod_name" (JStr ""));
     deployment := field labels "deployment" (field labels "kubernetes_deployment" (JStr ""));
     summary := JStr (PyStr.slice_to 500 (summary_text ann)) |}.

(** No character of [q] is a letter or a digit. *)
Fixpoint wordless (q : string) : bool :=
  match q with
  | "" => true
  | String c r => negb (PyStr.is_word (PyStr.lower_char c)) && wordless r
  end.

(** The URLs of the requests among the client's events. *)
Fixpoint requests (tr : list k8s_event) : list string :=
  match tr with
  | [] => []
  | Request url :: r => url :: requests r
  | Invoke _ _ _ :: r => requests r
  end.

(** The state [s] once the events [tr] and the counter increments [ms] are
    added; the rows are those of [s]. *)
Definition after (s : state) (tr : list k8s_event) (ms : list metric) : state :=
  {| trace := trace s ++ tr; metrics := metrics s ++ ms; rows := rows s |}.

(** An increment of the Kubernetes call counter under the kind ["api"]. *)
Definition is_api_counter (m : metric) : bool :=
  match m with
  | K8sTotal kind status =>
      String.eqb kind "api" && (String.eqb status "success" || String.eqb status "error")
  | _ => false
  end.

(** An increment of the completion call counter. *)
Definition is_completion_counter (m : metric) : bool :=
  match m with
  | OpenaiTotal status => String.eqb status "success" || String.eqb status "error"
  | _ => false
  end.

(** What a computation of the client may do, from any state: send at most
    [n] requests, and none without a token file; make at most [k]
    increments of the Kubernetes counter, all of kind ["api"], never more
    increments than requests; and leave the rows alone. *)
Definition client_effect {A : Type} (rt : runtime) (m : M A) (n k : nat) : Prop :=
  forall s, exists r tr ms,
    m s = (r, after s tr ms)
    /\ (length (requests tr) <= n)%nat
    /\ (length ms <= k)%nat
    /\ (length ms <= length (requests tr))%nat
    /\ forallb is_api_counter ms = true
    /\ (sa_token_file rt = None -> requests tr = []).

(** The runtime [rt] with [base] for [K8S_API]. *)
Definition with_api (rt : runtime) (base : string) : runtime :=
  {| sa_token_file := sa_token_file rt;
     k8s_api := base;
     request_fault := request_fault rt;
     urlopen := urlopen rt;
     json_loads := json_loads rt;
     json_dumps := json_dumps rt;
     json_dumps_indent2 := json_dumps_indent2 rt;
     url_quote := url_quote rt;
     runbooks_file := runbooks_file rt;
     openai_model := openai_model rt;
     completion := completion rt;
     storage_fault := storage_fault rt;
     now := now rt |}.

(** The record of an event has the five keys of [fetch_pod_events], in its
    order. *)
Definition five_keys (r : json) : Prop :=
  exists t rs m c l,
    r = JObj [("type", t); ("reason", rs); ("message", m); ("count", c); ("lastTimestamp", l)].

(** The events of [l] whose recency key is [k], in the order of [l]. *)
Definition stamped (k : string) (l : list json) : list json :=
  List.filter (fun e => String.eqb (recency e) k) l.




(** * Properties *)

(** ** Strings and slices *)

Lemma take_len (k : Z) (s : string) : PyStr.len (PyStr.take k s) <= Z.max 0 k.
Proof.
  revert k. induction s as [|c r IH]; intros k; unfold PyStr.len in *; simpl.
  - lia.
  - destruct (k <=? 0) eqn:E; simpl.
    + lia.
    + apply Z.leb_gt in E. specialize (IH (k - 1)). lia.
Qed.

Lemma slice_to_len (k : Z) (s : string) :
  0 <= k -> PyStr.len (PyStr.slice_to k s) <= k.
Proof.
  intros Hk. unfold PyStr.slice_to.
  destruct (0 <=? k) eqn:E; [|apply Z.leb_gt in E; lia].
  pose proof (take_len k s). lia.
Qed.

Lemma list_slice_to_length {A : Type} (k : Z) (l : list A) :
  0 <= k -> Z.of_nat (length (Py.list_slice_to k l)) <= k.
Proof.
  intros Hk. unfold Py.list_slice_to.
  destruct (0 <=? k) eqn:E; [|apply Z.leb_gt in E; lia].
  rewrite length_take. lia.
Qed.


Lemma lower_char_idem (c : ascii) :
  PyStr.lower_char (PyStr.lower_char c) = PyStr.lower_char c.
Proof. destruct c as [[] [] [] [] [] [] [] []]; reflexivity. Qed.

Lemma str_app_assoc (a b c : string) : (a ++ b) ++ c = a ++ (b ++ c).
Proof.
  induction a as [|x a IH]; [reflexivity|].
  change (String x ((a ++ b) ++ c) = String x (a ++ (b ++ c))). now rewrite IH.
Qed.

Lemma str_cons_app (c : ascii) (a b : string) : String c a ++ b = String c (a ++ b).
Proof. reflexivity. Qed.

Lemma str_nil_app (b : string) : "" ++ b = b.
Proof. reflexivity. Qed.

Lemma str_app_nil (a : string) : a ++ "" = a.
Proof. induction a as [|x a IH]; [reflexivity|]. rewrite str_cons_app. now rewrite IH. Qed.

Lemma rev_app_acc (s acc : string) : String.rev_app s acc = String.rev s ++ acc.
Proof.
  revert acc. induction s as [|c s IH]; intros acc; [reflexivity|].
  unfold String.rev. simpl. rewrite (IH (String c acc)), (IH (String c "")).
  now rewrite str_app_assoc.
Qed.

Lemma rev_cons (c : ascii) (s : string) : String.rev (String c s) = String.rev s ++ String c "".
Proof. unfold String.rev at 1. simpl. apply rev_app_acc. Qed.

Lemma rev_app_cons (cur : string) (c : ascii) (r : string) :
  String.rev (String c cur) ++ r = String.rev cur ++ String c r.
Proof. rewrite rev_cons, str_app_assoc. reflexivity. Qed.

Lemma take_prefix (k : Z) (s : string) :
  exists rest, s = PyStr.take k s ++ rest
               /\ PyStr.len (PyStr.take k s) = Z.min (Z.max 0 k) (PyStr.len s).
Proof.
  revert k. induction s as [|c r IH]; intros k.
  - exists "". split; [reflexivity|]. unfold PyStr.len. simpl. lia.
  - simpl. destruct (k <=? 0) eqn:E.
    + apply Z.leb_le in E. exists (String c r). split; [reflexivity|].
      unfold PyStr.len. simpl String.length. lia.
    + apply Z.leb_gt in E. destruct (IH (k - 1)) as (rest & Heq & Hlen).
      exists rest. split; [rewrite str_cons_app; congruence|].
      unfold PyStr.len in *. simpl String.length. lia.
Qed.

Lemma slice_to_cut (k : Z) (p : string) : cut_to k p (PyStr.slice_to k p).
Proof.
  unfold cut_to, kept, PyStr.slice_to. destruct (0 <=? k) eqn:E.
  - apply Z.leb_le in E. destruct (take_prefix k p) as (rest & Heq & Hlen).
    exists rest. split; [assumption|]. lia.
  - apply Z.leb_gt in E. destruct (take_prefix (PyStr.len p + k) p) as (rest & Heq & Hlen).
    exists rest. split; [assumption|]. unfold PyStr.len in *. lia.
Qed.

(** ** Relevance retriever *)

Lemma tokens_empty : tokens "" = ∅.
Proof. reflexivity. Qed.

Lemma score_pos_truthy (qtok : gset string) (p : string) :
  (0 < score qtok p)%nat -> PyStr.truthy p = true.
Proof.
  destruct p; [|reflexivity].
  unfold score. rewrite tokens_empty.
  rewrite intersection_empty_r_L, size_empty. intros Hlt. inversion Hlt.
Qed.

(** The loop of [retrieve], from any starting pair: either no chunk beats
    the starting score, or the result is the first chunk that reaches the
    highest score. *)
Lemma retrieve_scan_spec (qtok : gset string) (chunks : list string) (acc : string * nat) :
  let r := foldl (retrieve_step qtok) acc chunks in
  (r = acc /\ forall p, p ∈ chunks -> (score qtok p <= snd acc)%nat)
  \/ (exists i p,
        chunks !! i = Some p /\ r = (p, score qtok p)
        /\ (snd acc < score qtok p)%nat
        /\ (forall p', p' ∈ chunks -> (score qtok p' <= score qtok p)%nat)
        /\ (forall j p', (j < i)%nat -> chunks !! j = Some p' ->
                         (score qtok p' < score qtok p)%nat)).
Proof.
  revert acc. induction chunks as [|x l IH]; intros acc; simpl.
  - left. split; [reflexivity|]. intros p Hp. inversion Hp.
  - assert (retrieve_step qtok acc x
            = if (snd acc <? score qtok x)%nat then (x, score qtok x) else acc) as ->
      by reflexivity.
    destruct (snd acc <? score qtok x)%nat eqn:E.
    + apply Nat.ltb_lt in E. right.
      destruct (IH (x, score qtok x)) as [[Hr Hle] | (i & p & Hi & Hr & Hlt & Hmax & Hfirst)];
        simpl in *.
      * exists 0%nat, x. split_and!; [reflexivity|assumption|assumption| |].
        -- intros p' Hp'. apply elem_of_cons in Hp' as [->|Hp']; [lia|auto].
        -- intros j p' Hj. lia.
      * exists (S i), p. split_and!; [assumption|assumption|lia| |].
        -- intros p' Hp'. apply elem_of_cons in Hp' as [->|Hp']; [lia|auto].
        -- intros [|j] p' Hj Hl; simpl in Hl.
           ++ inversion Hl; subst. lia.
           ++ apply (Hfirst j); [lia|assumption].
    + apply Nat.ltb_ge in E.
      destruct (IH acc) as [[Hr Hle] | (i & p & Hi & Hr & Hlt & Hmax & Hfirst)].
      * left. split; [assumption|].
        intros p' Hp'. apply elem_of_cons in Hp' as [->|Hp']; [lia|auto].
      * right. exists (S i), p. split_and!; [assumption|assumption|assumption| |].
        -- intros p' Hp'. apply elem_of_cons in Hp' as [->|Hp']; [lia|auto].
        -- intros [|j] p' Hj Hl; simpl in Hl.
           ++ inversion Hl; subst. lia.
           ++ apply (Hfirst j); [lia|assumption].
Qed.

(** *** Passages *)

Lemma blank_line_in_app_r (s t : string) : blank_line_in s -> blank_line_in (s ++ t).
Proof.
  intros (a & b & ->). exists a, (b ++ t). now rewrite !str_app_assoc.
Qed.

Lemma blank_line_in_cons (c : ascii) (s : string) : blank_line_in s -> blank_line_in (String c s).
Proof. intros (a & b & ->). exists (String c a), b. reflexivity. Qed.

Lemma blank_line_in_app_l (s t : string) : blank_line_in t -> blank_line_in (s ++ t).
Proof.
  intros H. induction s as [|c s IH]; [exact H|].
  rewrite str_cons_app. now apply blank_line_in_cons.
Qed.

Lemma blank_line_here (r : string) :
  blank_line_in (String PyStr.newline (String PyStr.newline r)).
Proof. exists "", r. reflexivity. Qed.

Lemma blank_line_in_length (s : string) : blank_line_in s -> (2 <= String.length s)%nat.
Proof.
  intros (a & b & ->). induction a as [|c a IH]; [simpl; lia|].
  rewrite str_cons_app. simpl. lia.
Qed.

(** A blank line in [x ++ [c; c']] lies in [x ++ [c]] or is [c; c']. *)
Lemma blank_line_in_snoc (x : string) (c c' : ascii) :
  blank_line_in (x ++ String c (String c' "")) ->
  blank_line_in (x ++ String c "") \/ (c = PyStr.newline /\ c' = PyStr.newline).
Proof.
  induction x as [|d x IH]; intros (a & b & Heq).
  - rewrite str_nil_app in Heq. destruct a as [|d a].
    + injection Heq as -> -> _. auto.
    + rewrite str_cons_app in Heq. injection Heq as _ Heq.
      assert (blank_line_in (String c' "")) as Hb by (exists a, b; exact Heq).
      apply blank_line_in_length in Hb. simpl in Hb. lia.
  - rewrite str_cons_app in Heq. destruct a as [|d' a].
    + rewrite str_nil_app in Heq. injection Heq as -> Heq. left.
      rewrite str_cons_app. destruct x as [|e x].
      * rewrite str_nil_app in Heq. injection Heq as -> _. apply blank_line_here.
      * rewrite str_cons_app in Heq. injection Heq as -> _. rewrite str_cons_app.
        apply blank_line_here.
    + rewrite str_cons_app in Heq. injection Heq as _ Heq.
      destruct IH as [H|H]; [exists a, b; exact Heq| |auto].
      left. rewrite str_cons_app. now apply blank_line_in_cons.
Qed.

Lemma split_go_step (cur : string) (c c' : ascii) (r' : string) :
  PyStr.split_go cur (String c (String c' r'))
  = if Ascii.eqb c PyStr.newline && Ascii.eqb c' PyStr.newline
    then String.rev cur :: PyStr.split_go "" r'
    else PyStr.split_go (String c cur) (String c' r').
Proof. reflexivity. Qed.

Lemma split_go_passages (n : nat) :
  forall s cur,
    (String.length s <= n)%nat ->
    ~ blank_line_in (String.rev cur ++ match s with
                                       | "" => ""
                                       | String c _ => String c ""
                                       end) ->
    passages (String.rev cur ++ s) (PyStr.split_go cur s).
Proof.
  induction n as [|n IH]; intros s cur Hlen Hno.
  - destruct s; [|simpl in Hlen; lia]. simpl in *. rewrite str_app_nil in *.
    now apply passages_last.
  - destruct s as [|c [|c' r']].
    + simpl in *. rewrite str_app_nil in *. now apply passages_last.
    + simpl in *. rewrite rev_cons. now apply passages_last.
    + rewrite split_go_step.
      destruct (Ascii.eqb c PyStr.newline && Ascii.eqb c' PyStr.newline) eqn:E.
      * apply andb_true_iff in E as [Hc Hc'].
        apply Ascii.eqb_eq in Hc, Hc'. subst c c'.
        change (passages (String.rev cur ++ blank_line ++ r')
                  (String.rev cur :: PyStr.split_go "" r')).
        apply passages_cut; [exact Hno|].
        apply (IH r' ""); [simpl in Hlen; lia|].
        intros Hb. apply blank_line_in_length in Hb.
        destruct r'; simpl in Hb; lia.
      * rewrite <- rev_app_cons. apply IH; [simpl in *; lia|].
        rewrite rev_app_cons. intros Hb.
        apply blank_line_in_snoc in Hb as [Hb|[-> ->]]; [auto|].
        simpl in E. discriminate.
Qed.

Lemma split_blank_passages (s : string) : passages s (PyStr.split_blank s).
Proof.
  apply (split_go_passages (String.length s) s ""); [lia|].
  intros Hb. apply blank_line_in_length in Hb. destruct s; simpl in Hb; lia.
Qed.

Lemma split_go_whole (s : string) :
  forall cur, ~ blank_line_in (String.rev cur ++ s) ->
              PyStr.split_go cur s = [String.rev cur ++ s].
Proof.
  induction s as [|c r IH]; intros cur Hno.
  - simpl. now rewrite str_app_nil.
  - destruct r as [|c' r'].
    + simpl. now rewrite rev_cons.
    + rewrite split_go_step.
      destruct (Ascii.eqb c PyStr.newline && Ascii.eqb c' PyStr.newline) eqn:E.
      * apply andb_true_iff in E as [Hc Hc'].
        apply Ascii.eqb_eq in Hc, Hc'. subst c c'.
        destruct Hno. apply blank_line_in_app_l, blank_line_here.
      * rewrite IH; [now rewrite rev_app_cons|]. now rewrite rev_app_cons.
Qed.

Lemma split_go_cut (p rest : string) :
  forall cur, ~ blank_line_in (String.rev cur ++ p ++ PyStr.nl) ->
              PyStr.split_go cur (p ++ blank_line ++ rest)
              = (String.rev cur ++ p) :: PyStr.split_go "" rest.
Proof.
  induction p as [|c p IH]; intros cur Hno.
  - rewrite str_app_nil. reflexivity.
  - rewrite str_cons_app.
    assert (exists c' r', p ++ blank_line ++ rest = String c' r'
                          /\ (c' = PyStr.newline -> exists t, p ++ PyStr.nl = String PyStr.newline t))
      as (c' & r' & Heq & Hc').
    { destruct p as [|e p].
      - eexists _, _. split; [reflexivity|]. intros _. exists "". reflexivity.
      - eexists _, _. split; [reflexivity|]. intros ->. eexists. reflexivity. }
    rewrite Heq. rewrite split_go_step.
    destruct (Ascii.eqb c PyStr.newline && Ascii.eqb c' PyStr.newline) eqn:E.
    + apply andb_true_iff in E as [Hc Hcc].
      apply Ascii.eqb_eq in Hc, Hcc. subst c. destruct (Hc' Hcc) as [t Ht].
      destruct Hno. apply blank_line_in_app_l. rewrite str_cons_app, Ht.
      apply blank_line_here.
    + rewrite <- Heq, IH; [now rewrite rev_app_cons|].
      rewrite rev_app_cons. exact Hno.
Qed.

(** The passages of a corpus are determined: they are what the split gives. *)
Lemma passages_split_blank (s : string) (l : list string) :
  passages s l -> l = PyStr.split_blank s.
Proof.
  induction 1 as [p Hno|p rest more Hno Hrest IH]; unfold PyStr.split_blank.
  - now rewrite (split_go_whole p "" Hno).
  - rewrite (split_go_cut p rest "" Hno). now rewrite IH.
Qed.

Lemma passages_unique (s : string) (l l' : list string) :
  passages s l -> passages s l' -> l = l'.
Proof.
  intros H H'. apply passages_split_blank in H, H'. congruence.
Qed.

(** *** Tokens *)

Lemma fixed_word (c : ascii) :
  PyStr.lower_char c = c -> PyStr.is_word c = ascii_alnum c.
Proof. destruct c as [[] [] [] [] [] [] [] []]; vm_compute; congruence. Qed.

Lemma lower_idem (s : string) : PyStr.lower (PyStr.lower s) = PyStr.lower s.
Proof.
  induction s as [|c s IH]; [reflexivity|]. simpl. now rewrite lower_char_idem, IH.
Qed.

Lemma last_char_cons (c : ascii) (a : string) :
  a <> "" -> last_char (String c a) = last_char a.
Proof. destruct a; [congruence|reflexivity]. Qed.

Lemma last_char_some (a : string) (c : ascii) : last_char a = Some c -> a <> "".
Proof. destruct a; [discriminate|congruence]. Qed.

Lemma rev_nonempty (cur : string) : cur <> "" -> String.rev cur <> "".
Proof.
  destruct cur as [|c cur]; [congruence|]. intros _. rewrite rev_cons.
  destruct (String.rev cur); discriminate.
Qed.

Lemma rev_empty (cur : string) : String.rev cur = "" -> cur = "".
Proof.
  destruct cur as [|c cur]; [reflexivity|]. intros H.
  now destruct (rev_nonempty (String c cur)).
Qed.

Lemma findall_go_step (cur : string) (c : ascii) (r : string) :
  PyStr.findall_go cur (String c r)
  = if PyStr.is_word c then PyStr.findall_go (String c cur) r
    else match cur with
         | "" => PyStr.findall_go "" r
         | _ => String.rev cur :: PyStr.findall_go "" r
         end.
Proof. reflexivity. Qed.

(** What [findall_go] lists: the run that continues [cur], and the runs
    that begin later in [s]. *)
Lemma findall_go_runs (s : string) :
  forall cur t,
    PyStr.lower s = s ->
    t ∈ PyStr.findall_go cur s
    <-> (exists r b,
           s = r ++ b /\ all_alnum r = true /\ not_alnum (first_char b) = true
           /\ t = String.rev cur ++ r /\ t <> "")
        \/ (exists a b,
              s = a ++ t ++ b /\ t <> "" /\ all_alnum t = true
              /\ (exists d, last_char a = Some d /\ ascii_alnum d = false)
              /\ not_alnum (first_char b) = true).
Proof.
  induction s as [|c r IH]; intros cur t Hlow.
  - simpl. split.
    + intros Hin. left. exists "", "".
      destruct cur as [|x cur]; [inversion Hin|].
      apply list_elem_of_singleton in Hin as ->.
      split_and!; auto; [now rewrite str_app_nil|now apply rev_nonempty].
    + intros [(r & b & Heq & _ & _ & -> & Hne)|(a & b & Heq & _ & _ & (d & Hd & _) & _)].
      * destruct r; [|discriminate]. rewrite str_app_nil in *.
        destruct cur as [|x cur]; [now destruct Hne|]. apply list_elem_of_singleton. reflexivity.
      * apply last_char_some in Hd. destruct a; [congruence|discriminate].
  - simpl in Hlow. injection Hlow as Hc Hr.
    rewrite findall_go_step, (fixed_word c Hc).
    destruct (ascii_alnum c) eqn:Hw.
    + rewrite (IH (String c cur) t Hr). split.
      * intros [(r1 & b & -> & Hall & Hb & -> & Hne)|(a & b & -> & Hne & Hall & (d & Hd & Hnd) & Hb)].
        -- left. exists (String c r1), b. rewrite <- rev_app_cons.
           split_and!; auto. simpl. now rewrite Hw.
        -- right. exists (String c a), b. split_and!; auto.
           exists d. split; [|assumption].
           rewrite last_char_cons; [assumption|]. now apply last_char_some in Hd.
      * intros [(r0 & b & Heq & Hall & Hb & -> & Hne)|(a & b & Heq & Hne & Hall & (d & Hd & Hnd) & Hb)].
        -- left. destruct r0 as [|c0 r1].
           ++ rewrite str_nil_app in Heq. subst b. simpl in Hb. rewrite Hw in Hb. discriminate.
           ++ rewrite str_cons_app in Heq. injection Heq as <- ->.
              simpl in Hall. rewrite Hw in Hall. simpl in Hall.
              exists r1, b. rewrite rev_app_cons. split_and!; auto.
        -- right. destruct a as [|c0 a]; [discriminate|].
           rewrite str_cons_app in Heq. injection Heq as <- ->.
           destruct a as [|c1 a].
           ++ simpl in Hd. injection Hd as <-. congruence.
           ++ exists (String c1 a), b. split_and!; auto. exists d. auto.
    + assert (t ∈ match cur with
                  | "" => PyStr.findall_go "" r
                  | _ => String.rev cur :: PyStr.findall_go "" r
                  end
              <-> (cur <> "" /\ t = String.rev cur) \/ t ∈ PyStr.findall_go "" r) as ->.
      { destruct cur as [|x cur].
        - split; [auto|]. intros [[H _]|H]; [congruence|assumption].
        - rewrite elem_of_cons. split.
          + intros [->|H]; [left; split; [discriminate|reflexivity]|auto].
          + intros [[_ ->]|H]; auto. }
      rewrite (IH "" t Hr). split.
      * intros [[Hcur ->]|[(r1 & b & -> & Hall & Hb & -> & Hne)
                          |(a & b & -> & Hne & Hall & (d & Hd & Hnd) & Hb)]].
        -- left. exists "", (String c r). split_and!; auto.
           ++ simpl. now rewrite Hw.
           ++ now rewrite str_app_nil.
           ++ now apply rev_nonempty.
        -- right. exists (String c ""), b. split_and!; auto.
           exists c. auto.
        -- right. exists (String c a), b. split_and!; auto.
           exists d. split; [|assumption].
           rewrite last_char_cons; [assumption|]. now apply last_char_some in Hd.
      * intros [(r0 & b & Heq & Hall & Hb & -> & Hne)|(a & b & Heq & Hne & Hall & (d & Hd & Hnd) & Hb)].
        -- left. destruct r0 as [|c0 r1].
           ++ rewrite str_app_nil in *. split; [|reflexivity].
              intros ->. now destruct Hne.
           ++ rewrite str_cons_app in Heq. injection Heq as <- _.
              simpl in Hall. rewrite Hw in Hall. discriminate.
        -- right. destruct a as [|c0 a]; [discriminate|].
           rewrite str_cons_app in Heq. injection Heq as <- ->.
           destruct a as [|c1 a].
           ++ left. exists t, b. split_and!; auto.
           ++ right. exists (String c1 a), b. split_and!; auto. exists d. auto.
Qed.

(** The tokens the code reads off a text are the spec's. *)
Lemma findall_token (t s : string) :
  t ∈ PyStr.findall (PyStr.lower s) <-> token_of t s.
Proof.
  unfold PyStr.findall, token_of, maximal_run.
  rewrite (findall_go_runs (PyStr.lower s) "" t (lower_idem s)). split.
  - intros [(r & b & Heq & Hall & Hb & -> & Hne)|(a & b & Heq & Hne & Hall & (d & Hd & Hnd) & Hb)].
    + exists "", b. split_and!; auto.
    + exists a, b. split_and!; auto. rewrite Hd. simpl. now rewrite Hnd.
  - intros (a & b & Heq & Hne & Hall & Ha & Hb).
    destruct (last_char a) as [d|] eqn:Hd.
    + right. exists a, b. split_and!; auto. exists d. split; [assumption|].
      simpl in Ha. now apply negb_true_iff in Ha.
    + left. destruct a as [|x a].
      * exists t, b. split_and!; auto.
      * exfalso. clear -Hd. revert x Hd. induction a as [|y a IH]; intros x Hd; [discriminate|].
        apply (IH y). exact Hd.
Qed.

Lemma tokens_token (t s : string) : t ∈ tokens s <-> token_of t s.
Proof. unfold tokens. rewrite elem_of_list_to_set. apply findall_token. Qed.

(** The score is the number of distinct tokens that the query and the
    passage share. *)
Lemma score_shared (q p : string) : shared_tokens q p (score (tokens q) p).
Proof.
  exists (elements (tokens q ∩ tokens p)). split; [apply NoDup_elements|].
  split; [|reflexivity].
  intros t. rewrite elem_of_elements, elem_of_intersection, !tokens_token. reflexivity.
Qed.

Lemma shared_tokens_unique (q p : string) (n m : nat) :
  shared_tokens q p n -> shared_tokens q p m -> n = m.
Proof.
  intros (l & Hl & Hin & <-) (l' & Hl' & Hin' & <-).
  apply Permutation_length, NoDup_Permutation; [assumption|assumption|].
  intros t. rewrite Hin, Hin'. reflexivity.
Qed.

(** C3.  [retrieve] returns, cut to [max_chars], the passage that shares
    the most tokens with the query, the earliest one on a tie, and the empty
    string when no passage shares a token with it, an empty corpus included.
    The passages are the blocks of the corpus that blank lines delimit, the
    tokens of a text the maximal runs of ASCII letters and digits of its
    lower-cased form, and the score of a passage the number of distinct
    tokens it has in common with the query. *)
Theorem retrieve_best_passage (runbooks q : string) (max_chars : Z) :
  exists (chunks : list string) (sc : string -> nat),
    passages runbooks chunks
    /\ (forall p, shared_tokens q p (sc p))
    /\ (((forall p, p ∈ chunks -> sc p = 0%nat) /\ retrieve runbooks q max_chars = "")
        \/ (exists i p,
              chunks !! i = Some p
              /\ (0 < sc p)%nat
              /\ (forall p', p' ∈ chunks -> (sc p' <= sc p)%nat)
              /\ (forall j p', (j < i)%nat -> chunks !! j = Some p' -> (sc p' < sc p)%nat)
              /\ retrieve runbooks q max_chars = PyStr.slice_to max_chars p
              /\ cut_to max_chars p (retrieve runbooks q max_chars))).
Proof.
  exists (PyStr.split_blank runbooks), (score (tokens q)).
  split; [apply split_blank_passages|]. split; [intros p; apply score_shared|].
  unfold retrieve, retrieve_scan.
  destruct (retrieve_scan_spec (tokens q) (PyStr.split_blank runbooks) ("", 0%nat))
    as [[Hr Hle] | (i & p & Hi & Hr & Hlt & Hmax & Hfirst)].
  - left. rewrite Hr. simpl. split; [|reflexivity].
    intros p Hp. specialize (Hle p Hp). simpl in Hle. lia.
  - right. exists i, p. rewrite Hr. simpl in *.
    assert (0 < score (tokens q) p)%nat as Hpos by lia.
    rewrite (score_pos_truthy _ _ Hpos). split_and!; auto. apply slice_to_cut.
Qed.

(** The two runs of the spec's section 8. *)
Example retrieve_empty_corpus : retrieve "" "anything" 2000 = "".
Proof. vm_compute. reflexivity. Qed.

Example retrieve_first_seen_wins :
  retrieve ("foo bar" ++ PyStr.nl ++ PyStr.nl ++ "foo baz") "foo" 2000 = "foo bar".
Proof. vm_compute. reflexivity. Qed.

Lemma case_variant_lower (q q' : string) :
  case_variant q q' -> PyStr.lower q = PyStr.lower q'.
Proof. induction 1; simpl; congruence. Qed.

Lemma same_tokens_repeated_tokens (q q' : string) :
  same_tokens_repeated q q' -> tokens q = tokens q'.
Proof.
  intros H. unfold tokens. apply set_eq. intros t.
  rewrite !elem_of_list_to_set. apply H.
Qed.

(** C9.  Changing the case of letters in the query, or repeating tokens of
    it, does not change what [retrieve] returns. *)
Theorem retrieve_case_repeat_invariant (runbooks q q' : string) (max_chars : Z) :
  case_variant q q' \/ same_tokens_repeated q q' ->
  retrieve runbooks q max_chars = retrieve runbooks q' max_chars.
Proof.
  intros H. unfold retrieve.
  assert (tokens q = tokens q') as ->; [|reflexivity].
  destruct H as [H|H].
  - unfold tokens. now rewrite (case_variant_lower _ _ H).
  - now apply same_tokens_repeated_tokens.
Qed.

(** ** Alert extractor *)

(** C7.  A payload without [alerts], or with an empty [alerts] list, is
    extracted to the default record, and [extract] does not raise. *)
Theorem extract_without_alerts (payload : dict) :
  assoc_get "alerts" payload = None \/ assoc_get "alerts" payload = Some (JArr []) ->
  extract payload = Ok default_alert.
Proof.
  intros [H|H]; unfold extract; simpl; rewrite H; reflexivity.
Qed.

Lemma extract_without_alerts_witness :
  extract [("receiver", JStr "aiops"); ("alerts", JArr [])] = Ok default_alert.
Proof.
  apply extract_without_alerts. right. reflexivity.
Defined.

Lemma get_field (d : dict) (k : string) (default : json) :
  Py.get (JObj d) k default = Ok (field d k default).
Proof. reflexivity. Qed.

Lemma or_dict_any (d : dict) : Py.or_ (JObj d) (JObj []) = JObj d.
Proof. destruct d; reflexivity. Qed.

(** C10.  When the first alert's annotations map [summary] to the empty
    string, the extracted summary is the [description] annotation (cut to
    500 characters), and the empty string when there is no description. *)
Theorem extract_summary_falls_back_on_empty
    (payload a labels ann : dict) (rest : list json) (description : option string) :
  assoc_get "alerts" payload = Some (JArr (JObj a :: rest)) ->
  Py.or_ (field a "labels" JNull) (JObj []) = JObj labels ->
  assoc_get "annotations" a = Some (JObj ann) ->
  assoc_get "summary" ann = Some (JStr "") ->
  assoc_get "description" ann = JStr <$> description ->
  exists info,
    extract payload = Ok info
    /\ summary info = JStr (PyStr.slice_to 500 (default "" description)).
Proof.
  intros Hal Hlb Han Hsum Hdesc.
  unfold extract. simpl. rewrite Hal. simpl.
  fold (field a "labels" JNull). rewrite Hlb, Han. simpl.
  unfold get2. simpl. rewrite or_dict_any. simpl.
  rewrite Hsum. simpl. rewrite Hdesc.
  destruct description as [d|]; simpl.
  - destruct d as [|c d]; simpl; eexists; split; reflexivity.
  - eexists; split; reflexivity.
Qed.

Lemma extract_summary_falls_back_on_empty_witness :
  exists info,
    extract [("alerts",
              JArr [JObj [("labels", JObj [("alertname", JStr "CrashLoop")]);
                          ("annotations", JObj [("summary", JStr "");
                                                ("description", JStr "pod restarts")])]])]
    = Ok info
    /\ summary info = JStr (PyStr.slice_to 500 (default "" (Some "pod restarts"))).
Proof.
  apply (extract_summary_falls_back_on_empty _
           [("labels", JObj [("alertname", JStr "CrashLoop")]);
            ("annotations", JObj [("summary", JStr ""); ("description", JStr "pod restarts")])]
           [("alertname", JStr "CrashLoop")]
           [("summary", JStr ""); ("description", JStr "pod restarts")]
           [] (Some "pod restarts")); reflexivity.
Defined.

(** ** Resource state summarizer *)

Lemma entry_contains (d : dict) (k : string) (o : option dict) :
  entry d k = Some o ->
  Py.contains k (JObj d) = Ok (bool_decide (is_Some o))
  /\ forall w, o = Some w -> Py.item (JObj d) k = Ok (JObj w).
Proof.
  unfold entry, Py.contains, Py.item, assoc_mem.
  destruct (assoc_get k d) as [[]|]; intros H; inversion H; subst; split;
    try reflexivity; intros w Hw; inversion Hw; reflexivity.
Qed.

Lemma container_lines_view (cs : list json) (c0 : json) (c : container_view)
    (lines : list string) :
  container_view_of c0 = Some c ->
  container_lines (JArr (c0 :: cs)) lines
  = Ok (lines
        ++ [render "container" (field (cv_fields c) "name" (JStr ""));
            render "restartCount" (field (cv_fields c) "restartCount" (JInt 0))]
        ++ block (cv_waiting c) (fun w =>
             [render "state.waiting.reason" (field w "reason" (JStr ""));
              render "state.waiting.message" (ok_or (waiting_message w) (JStr ""))])
        ++ block (cv_terminated c) (fun t =>
             [render "state.terminated.reason" (field t "reason" (JStr ""));
              render "state.terminated.exitCode" (field t "exitCode" (JStr ""))])
        ++ block (cv_last_terminated c) (fun t =>
             [render "last.terminated.reason" (field t "reason" (JStr ""));
              render "last.terminated.exitCode" (field t "exitCode" (JStr ""))]))%list.
Proof.
  unfold container_view_of. intros H.
  destruct c0 as [| | | | |d]; try discriminate. simpl in H.
  unfold dict_or_empty in H.
  destruct (Py.or_ (field d "state" JNull) (JObj [])) as [| | | | |sd] eqn:Hsd;
    try discriminate.
  destruct (Py.or_ (field d "lastState" JNull) (JObj [])) as [| | | | |ld] eqn:Hld;
    try discriminate.
  simpl in H.
  destruct (entry sd "waiting") as [w|] eqn:Hw; try discriminate.
  destruct (entry sd "terminated") as [t|] eqn:Ht; try discriminate.
  destruct (entry ld "terminated") as [l|] eqn:Hl; try discriminate.
  simpl in H.
  apply entry_contains in Hw as [Hwc Hwi], Ht as [Htc Hti], Hl as [Hlc Hli].
  unfold container_lines. cbn [Py.first res_bind]. rewrite !get_field.
  cbn [res_bind]. rewrite Hsd, Hld, Hwc, Htc, Hlc. cbn [res_bind].
  destruct w as [w|]; destruct t as [t|]; destruct l as [l|];
    repeat match goal with
           | Hx : forall w, Some ?x = Some w -> _ |- _ => specialize (Hx x eq_refl); rewrite Hx
           | Hx : forall w, None = Some w -> _ |- _ => clear Hx
           end;
    cbn [bool_decide decide_rel is_Some_dec res_bind terminated_lines block cv_fields
         cv_waiting cv_terminated cv_last_terminated option_bind mbind] in *;
    rewrite ?get_field; cbn [res_bind].
  all: try (fold (waiting_message w) in *;
            destruct (waiting_message w) as [m|e] eqn:Hm; [|discriminate]).
  all: simpl in H; inversion H; subst; unfold append, render; simpl;
    rewrite ?Hm; rewrite <- ?app_assoc; reflexivity.
Qed.

(** C6, as stated, fails: a status without [phase] and a container status
    without [restartCount] still get their lines, with an empty value and
    with [0]. *)
Lemma summarize_pod_renders_absent_fields :
  let c0 := [("name", JStr "web")] in
  let status := [("containerStatuses", JArr [JObj c0])] in
  assoc_get "phase" status = None
  /\ assoc_get "restartCount" c0 = None
  /\ summarize_pod (JObj [("status", JObj status)])
     = Ok ("phase=" ++ PyStr.nl ++ "container=web" ++ PyStr.nl ++ "restartCount=0").
Proof. vm_compute. repeat split; reflexivity. Qed.

(** C6, amended.  The summary is the phase line, then, when a container is
    reported, its [container] and [restartCount] lines, then the two lines
    of each of the [waiting], [terminated] and previous [terminated] entries
    that is present, in that order.  The lines of an absent entry are
    omitted; a field absent inside a present block is printed with its
    default value, not omitted. *)
Theorem summarize_pod_blocks (pod_obj : json) (v : pod_view) :
  view_of pod_obj = Some v ->
  summarize_pod pod_obj
  = Ok (PyStr.slice_to 2000 (PyStr.join PyStr.nl (spec_lines v))).
Proof.
  unfold view_of, summarize_pod. intros H.
  destruct (Py.truthy pod_obj) eqn:Htrue; [|discriminate]. cbn [negb].
  destruct pod_obj as [| | | | |p]; try discriminate. cbn [as_dict mbind option_bind] in H.
  unfold dict_or_empty in H. unfold summary_lines. rewrite get_field. cbn [res_bind].
  destruct (Py.or_ (field p "status" JNull) (JObj [])) as [| | | | |st]; try discriminate.
  cbn [as_dict mbind option_bind] in H. rewrite !get_field. cbn [res_bind].
  destruct (Py.or_ (field st "containerStatuses" JNull) (JArr [])) as [| | | |cs|];
    try discriminate.
  destruct cs as [|c0 cs].
  - inversion H; subst. reflexivity.
  - destruct (container_view_of c0) as [c|] eqn:Hc; [|discriminate].
    cbn [mbind option_bind] in H. inversion H; subst.
    cbn [Py.truthy]. rewrite (container_lines_view cs c0 c _ Hc). reflexivity.
Qed.

Lemma summarize_pod_blocks_witness :
  summarize_pod
    (JObj [("status",
            JObj [("phase", JStr "Running");
                  ("containerStatuses",
                   JArr [JObj [("name", JStr "web");
                               ("state", JObj [("waiting",
                                                JObj [("reason", JStr "CrashLoopBackOff")])])]])])])
  = Ok ("phase=Running" ++ PyStr.nl ++ "container=web" ++ PyStr.nl ++ "restartCount=0"
        ++ PyStr.nl ++ "state.waiting.reason=CrashLoopBackOff"
        ++ PyStr.nl ++ "state.waiting.message=").
Proof.
  rewrite (summarize_pod_blocks _
             {| pv_status := [("phase", JStr "Running");
                              ("containerStatuses",
                               JArr [JObj [("name", JStr "web");
                                           ("state", JObj [("waiting",
                                                            JObj [("reason", JStr "CrashLoopBackOff")])])]])];
                pv_container :=
                  Some {| cv_fields := [("name", JStr "web");
                                        ("state", JObj [("waiting",
                                                         JObj [("reason", JStr "CrashLoopBackOff")])])];
                          cv_waiting := Some [("reason", JStr "CrashLoopBackOff")];
                          cv_terminated := None;
                          cv_last_terminated := None |} |});
    reflexivity.
Defined.

Lemma summarize_pod_len (pod_obj : json) (out : string) :
  summarize_pod pod_obj = Ok out -> PyStr.len out <= 2000.
Proof.
  unfold summarize_pod. destruct (negb (Py.truthy pod_obj)).
  - intros H. inversion H. vm_compute. discriminate.
  - destruct (summary_lines pod_obj) as [lines|e]; simpl; intros H; inversion H.
    apply slice_to_len. lia.
Qed.

(** ** The handler: evidence for an alert without a pod *)

Lemma gather_without_pod (rt : runtime) (info : alert_info) (s : state) :
  Py.truthy (pod info) = false ->
  gather rt info s = (Ok ("(pod not fetched)", [], ""), s).
Proof. intros H. unfold gather. rewrite H. reflexivity. Qed.

Lemma complete_run (rt : runtime) (user : string) (s : state) :
  exists text m, complete rt user s = (Ok text, with_metrics s [m]).
Proof.
  unfold complete.
  destruct (completion rt (model_name rt) system_prompt user) as [text|msg];
    eexists; eexists; reflexivity.
Qed.

Lemma persist_cases (rt : runtime) (payload : dict) (info : alert_info) (text : string)
    (ctx : evidence) (s : state) :
  (exists e, persist rt payload info text ctx s = (Raise e, s))
  \/ persist rt payload info text ctx s = (Ok tt, with_row s (row_of rt payload info text ctx)).
Proof.
  unfold persist. destruct (storage_fault rt) as [e|].
  - left. exists e. reflexivity.
  - unfold bind, lift.
    repeat match goal with
           | |- context [bind_param ?v] =>
               destruct (bind_param v) as [[]|?]; [|left; eexists; reflexivity]
           end.
    right. reflexivity.
Qed.

Lemma persist_ok (rt : runtime) (payload : dict) (info : alert_info) (text : string)
    (ctx : evidence) (s : state) :
  storage_fault rt = None -> bindable info = true ->
  persist rt payload info text ctx s = (Ok tt, with_row s (row_of rt payload info text ctx)).
Proof.
  intros Hst Hb. unfold persist. rewrite Hst.
  unfold bindable in Hb. simpl in Hb. unfold bind, lift.
  repeat match goal with
         | |- context [bind_param ?v] =>
             destruct (bind_param v) as [[]|?]; [|simpl in Hb; discriminate]
         end.
  reflexivity.
Qed.

(** [recommend] once the alert is extracted, the evidence gathered and the
    completion call answered. *)
Lemma recommend_run (rt : runtime) (payload : dict) (s s1 s2 : state) (info : alert_info)
    (psum logs text : string) (evs : list json) :
  extract payload = Ok info ->
  gather rt info s = (Ok (psum, evs, logs), s1) ->
  complete rt (user_prompt rt info psum evs logs
                 (retrieve (load_runbooks rt) (runbook_query info) 2000)) s1
  = (Ok text, s2) ->
  let k8s := {| pod_summary := psum; events := evs; logs_tail := PyStr.slice_to 4000 logs |} in
  (exists e,
     persist rt payload info text k8s s2 = (Raise e, s2)
     /\ recommend rt payload s
        = (RespError e, with_metrics s2 [ReqTotal "error"; LatObserve]))
  \/ (persist rt payload info text k8s s2
      = (Ok tt, with_row s2 (row_of rt payload info text k8s))
      /\ recommend rt payload s
         = (RespOk info k8s text,
            with_metrics (with_row s2 (row_of rt payload info text k8s))
              [ReqTotal "success"; LatObserve])).
Proof.
  intros Hex Hg Hc k8s.
  assert (recommend rt payload s
          = match persist rt payload info text k8s s2 with
            | (Ok _, s3) =>
                (RespOk info k8s text, with_metrics s3 [ReqTotal "success"; LatObserve])
            | (Raise e, s3) =>
                (RespError e, with_metrics s3 [ReqTotal "error"; LatObserve])
            end) as ->.
  { unfold recommend, recommend_body. rewrite Hex.
    unfold bind at 1. unfold lift at 1. unfold bind at 1. rewrite Hg.
    unfold bind at 1. rewrite Hc. fold k8s.
    unfold bind at 1.
    destruct (persist rt payload info text k8s s2) as [[[]|e] s3];
      unfold bind, inc, ret, with_metrics; simpl; rewrite <- ?app_assoc; reflexivity. }
  destruct (persist_cases rt payload info text k8s s2) as [[e He]|Hok].
  - left. exists e. rewrite He. split; reflexivity.
  - right. rewrite Hok. split; reflexivity.
Qed.

Lemma complete_failed (rt : runtime) (user msg : string) (s : state) :
  completion rt (model_name rt) system_prompt user = CompletionFailed msg ->
  complete rt user s
  = (Ok ("OpenAI call failed: " ++ msg), with_metrics s [OpenaiTotal "error"]).
Proof. intros H. unfold complete. rewrite H. reflexivity. Qed.

(** C1, as stated, fails on the text of the sentinel: for the payload [{}],
    whose extracted pod name is empty, the summary in the response is
    ["(pod not fetched)"]. *)
Lemma recommend_sentinel_text :
  pod default_alert = JStr ""
  /\ extract [] = Ok default_alert
  /\ exists text s',
       recommend offline_rt [] fresh = (RespOk default_alert no_evidence text, s')
       /\ pod_summary no_evidence <> "(resource not fetched)".
Proof.
  split; [reflexivity|]. split; [reflexivity|].
  eexists. eexists. split; [vm_compute; reflexivity|].
  vm_compute. discriminate.
Qed.

(** C1, amended.  For an alert whose extracted pod name is the empty
    string, the three queries are not called and no request is sent; the
    evidence has no events, an empty log tail and the summary
    ["(pod not fetched)"], and that is the evidence of the response. *)
Theorem recommend_without_pod (rt : runtime) (payload : dict) (s : state) (info : alert_info) :
  extract payload = Ok info ->
  pod info = JStr "" ->
  gather rt info s = (Ok ("(pod not fetched)", [], ""), s)
  /\ trace (snd (recommend rt payload s)) = trace s
  /\ (forall a ev text, fst (recommend rt payload s) = RespOk a ev text -> ev = no_evidence)
  /\ (storage_fault rt = None -> bindable info = true ->
      exists text, fst (recommend rt payload s) = RespOk info no_evidence text).
Proof.
  intros Hex Hpod.
  assert (Hg : gather rt info s = (Ok ("(pod not fetched)", [], ""), s))
    by (apply gather_without_pod; rewrite Hpod; reflexivity).
  split; [assumption|].
  destruct (complete_run rt (user_prompt rt info "(pod not fetched)" [] ""
                               (retrieve (load_runbooks rt) (runbook_query info) 2000)) s)
    as (text & m & Hc).
  destruct (recommend_run rt payload s s _ info _ _ _ _ Hex Hg Hc)
    as [(e & Hp & Hr)|(Hp & Hr)]; rewrite Hr; simpl.
  - split; [reflexivity|]. split; [intros a ev t H; discriminate|].
    intros Hst Hb. rewrite (persist_ok rt payload info text _ _ Hst Hb) in Hp. discriminate.
  - split; [reflexivity|]. split.
    + intros a ev t H. inversion H. reflexivity.
    + intros _ _. exists text. reflexivity.
Qed.

Lemma recommend_without_pod_witness :
  gather offline_rt default_alert fresh = (Ok ("(pod not fetched)", [], ""), fresh)
  /\ trace (snd (recommend offline_rt [] fresh)) = trace fresh
  /\ (forall a ev text,
        fst (recommend offline_rt [] fresh) = RespOk a ev text -> ev = no_evidence)
  /\ (storage_fault offline_rt = None -> bindable default_alert = true ->
      exists text, fst (recommend offline_rt [] fresh) = RespOk default_alert no_evidence text).
Proof.
  apply (recommend_without_pod offline_rt [] fresh default_alert); reflexivity.
Defined.

(** ** The handler: a failing completion call *)

(** C8.  When the completion call raises, the recommendation is the error
    text, the record is stored and the response is the structured one. *)
Theorem completion_failure_absorbed (rt : runtime) (payload : dict) (s s1 : state)
    (info : alert_info) (psum logs : string) (evs : list json) (msg : string) :
  extract payload = Ok info ->
  gather rt info s = (Ok (psum, evs, logs), s1) ->
  completion rt (model_name rt) system_prompt
    (user_prompt rt info psum evs logs (retrieve (load_runbooks rt) (runbook_query info) 2000))
  = CompletionFailed msg ->
  storage_fault rt = None ->
  bindable info = true ->
  let k8s := {| pod_summary := psum; events := evs; logs_tail := PyStr.slice_to 4000 logs |} in
  let text := "OpenAI call failed: " ++ msg in
  recommend rt payload s
  = (RespOk info k8s text,
     with_metrics (with_row (with_metrics s1 [OpenaiTotal "error"])
                            (row_of rt payload info text k8s))
                  [ReqTotal "success"; LatObserve]).
Proof.
  intros Hex Hg Hc Hst Hb k8s text.
  destruct (recommend_run rt payload s s1 _ info _ _ _ _ Hex Hg (complete_failed rt _ msg s1 Hc))
    as [(e & Hp & _)|(_ & Hr)].
  - fold text in Hp. rewrite (persist_ok rt payload info text _ _ Hst Hb) in Hp. discriminate.
  - exact Hr.
Qed.

Lemma completion_failure_absorbed_witness :
  recommend offline_rt [] fresh
  = (RespOk default_alert no_evidence "OpenAI call failed: connection refused",
     with_metrics (with_row (with_metrics fresh [OpenaiTotal "error"])
                            (row_of offline_rt [] default_alert
                               "OpenAI call failed: connection refused" no_evidence))
                  [ReqTotal "success"; LatObserve]).
Proof.
  apply (completion_failure_absorbed offline_rt [] fresh fresh default_alert
           "(pod not fetched)" "" [] "connection refused"); reflexivity.
Defined.

(** ** Cluster evidence client: failures *)








(** ** Cluster evidence client: recent events *)

Lemma ts_recency (e : json) : event_ok e = true -> ts e = Ok (JStr (recency e)).
Proof.
  destruct e as [| | | | |d]; try discriminate. unfold event_ok, ts, recency, stamp.
  rewrite !get_field. unfold field. intros H.
  destruct (assoc_get "lastTimestamp" d) as [[| | |[|]| |]|];
    destruct (assoc_get "eventTime" d) as [[| | |[|]| |]|];
      destruct (assoc_get "firstTimestamp" d) as [[| | |[|]| |]|];
        try discriminate; reflexivity.
Qed.



Lemma keyed_listed (l : list json) :
  Forall (fun e => event_ok e = true) l ->
  keyed l = Ok (map with_key l).
Proof.
  induction 1 as [|e l He Hl IH]; [reflexivity|].
  simpl. rewrite (ts_recency e He), IH. reflexivity.
Qed.

Lemma ltb_le (a b : string) : String.ltb a b = true -> String.le a b.
Proof.
  unfold String.le, String.leb, String.ltb.
  destruct (String.compare a b); simpl; intros H; try discriminate; exact I.
Qed.

Lemma not_ltb_le (a b : string) : String.ltb a b = false -> String.le b a.
Proof.
  unfold String.le, String.leb, String.ltb. rewrite (String.compare_antisym a b).
  destruct (String.compare b a); simpl; intros H; try discriminate; exact I.
Qed.

Lemma key_descending_trans (a b c : json) :
  key_descending a b -> key_descending b c -> key_descending a c.
Proof. unfold key_descending. intros Hab Hbc. now transitivity (recency b). Qed.

(** Insertion keeps the list a descending rearrangement of the events. *)
Lemma insert_desc_listed (x : json) (l : list json) :
  StronglySorted key_descending l ->
  exists l',
    insert_desc (with_key x) (map with_key l) = Ok (map with_key l')
    /\ Permutation l' (x :: l)
    /\ StronglySorted key_descending l'.
Proof.
  induction l as [|y r IH]; intros Hs.
  - exists [x]. split; [reflexivity|]. split; [reflexivity|].
    constructor; constructor.
  - apply StronglySorted_inv in Hs as [Hr Hy].
    change (insert_desc (with_key x) (map with_key (y :: r)))
      with (if String.ltb (recency x) (recency y)
            then (let? r' := insert_desc (with_key x) (map with_key r) in Ok (with_key y :: r'))
            else Ok (with_key x :: with_key y :: map with_key r)).
    destruct (String.ltb (recency x) (recency y)) eqn:E.
    + destruct (IH Hr) as (l' & Hins & Hperm & Hsort). rewrite Hins.
      exists (y :: l'). split; [reflexivity|]. split.
      * rewrite Hperm. apply perm_swap.
      * constructor; [assumption|].
        rewrite Hperm. constructor; [|assumption].
        unfold key_descending. now apply ltb_le.
    + exists (x :: y :: r). split; [reflexivity|]. split; [reflexivity|].
      constructor; [constructor; assumption|].
      assert (key_descending x y) as Hxy by (unfold key_descending; now apply not_ltb_le).
      constructor; [assumption|].
      eapply Forall_impl; [exact Hy|]. intros z Hz. simpl in Hz.
      now apply (key_descending_trans x y z).
Qed.

Lemma sort_desc_listed (l : list json) :
  exists l',
    sort_desc (map with_key l) = Ok (map with_key l')
    /\ Permutation l' l
    /\ StronglySorted key_descending l'.
Proof.
  induction l as [|x r (r' & Hsort & Hperm & Hs)].
  - exists []. split; [reflexivity|]. split; [reflexivity|constructor].
  - simpl. rewrite Hsort. simpl.
    destruct (insert_desc_listed x r' Hs) as (l' & Hins & Hperm' & Hs').
    exists l'. split; [assumption|]. split; [|assumption].
    rewrite Hperm'. now constructor.
Qed.

Lemma map_snd_with_key (l : list json) : map snd (map with_key l) = l.
Proof. induction l as [|x r IH]; simpl; congruence. Qed.









(** The ordering run of the spec's section 8: stamps T1 < T3 < T2 in input
    order come out as T2, T3, T1. *)
Example fetch_pod_events_newest_first :
  map record_stamp (ok_or (fst (fetch_pod_events listing_rt (JStr "prod") (JStr "web-1") 15 fresh)) [])
  = ["2024-05-01T12:00:00.000000Z"; "2024-05-01T11:00:00Z"; "2024-05-01T10:00:00Z"].
Proof. vm_compute. reflexivity. Qed.


(** ** Size bounds *)

Lemma res_bind_ok {A B : Type} (r : res A) (k : A -> res B) (b : B) :
  res_bind r k = Ok b -> exists a, r = Ok a /\ k a = Ok b.
Proof. destruct r as [a|e]; simpl; [eauto|discriminate]. Qed.

Lemma bind_ok {A B : Type} (m : M A) (k : A -> M B) (s s' : state) (b : B) :
  bind m k s = (Ok b, s') -> exists a s1, m s = (Ok a, s1) /\ k a s1 = (Ok b, s').
Proof.
  unfold bind. destruct (m s) as [[a|e] s1]; [eauto|discriminate].
Qed.

Lemma lift_ok {A : Type} (r : res A) (s s' : state) (a : A) :
  lift r s = (Ok a, s') -> r = Ok a /\ s' = s.
Proof. unfold lift. intros H. inversion H. auto. Qed.

Ltac res_step H :=
  let a := fresh "v" in
  let Ha := fresh "Hv" in
  apply res_bind_ok in H as (a & Ha & H).

Lemma slice_to_within (k : Z) (v m : json) :
  0 <= k -> Py.slice_to k v = Ok m -> len_within k m.
Proof.
  intros Hk. destruct v; simpl; intros H; inversion H; subst.
  - eexists. split; [reflexivity|]. now apply slice_to_len.
  - eexists. split; [reflexivity|]. now apply list_slice_to_length.
Qed.

Lemma extract_summary_within (payload : dict) (info : alert_info) :
  extract payload = Ok info -> len_within 500 (summary info).
Proof.
  unfold extract. intros H. repeat res_step H.
  inversion H; subst. simpl. eapply slice_to_within; [|eassumption]. lia.
Qed.

Lemma event_record_within (e r : json) :
  event_record e = Ok r -> message_within 300 r.
Proof.
  unfold event_record. intros H. repeat res_step H. inversion H; subst.
  eexists. split; [reflexivity|]. eapply slice_to_within; [|eassumption]. lia.
Qed.

Lemma event_records_within (l out : list json) :
  event_records l = Ok out -> Forall (message_within 300) out.
Proof.
  revert out. induction l as [|e l IH]; simpl; intros out H.
  - inversion H. constructor.
  - repeat res_step H. inversion H; subst.
    constructor; [eapply event_record_within; eassumption|auto].
Qed.

Lemma fetch_pod_events_within (rt : runtime) (ns name : json) (max_items : Z)
    (s s' : state) (out : list json) :
  fetch_pod_events rt ns name max_items s = (Ok out, s') ->
  Forall (message_within 300) out.
Proof.
  unfold fetch_pod_events. intros H.
  apply bind_ok in H as (? & s1 & _ & H).
  destruct (negb _).
  - inversion H. constructor.
  - repeat (apply bind_ok in H as (? & ? & _ & H)).
    apply lift_ok in H as [H _]. eapply event_records_within; eassumption.
Qed.

Lemma fetch_pod_logs_within (rt : runtime) (ns name : json) (tail : Z)
    (s s' : state) (out : string) :
  fetch_pod_logs rt ns name tail s = (Ok out, s') -> PyStr.len out <= 4000.
Proof.
  unfold fetch_pod_logs. intros H.
  apply bind_ok in H as (? & s1 & _ & H).
  destruct (negb _); [inversion H; vm_compute; discriminate|].
  destruct (sa_token_file rt); [|inversion H; vm_compute; discriminate].
  repeat (apply bind_ok in H as (? & ? & _ & H)).
  destruct (urlopen rt _ _ 6) as [f|b]; inversion H.
  - vm_compute; discriminate.
  - apply slice_to_len. lia.
Qed.

Lemma retrieve_within (runbooks q : string) (max_chars : Z) :
  0 <= max_chars -> PyStr.len (retrieve runbooks q max_chars) <= max_chars.
Proof.
  intros H. unfold retrieve. destruct (PyStr.truthy _).
  - now apply slice_to_len.
  - exact H.
Qed.

Lemma gather_within (rt : runtime) (info : alert_info) (s s' : state)
    (psum logs : string) (evs : list json) :
  gather rt info s = (Ok (psum, evs, logs), s') ->
  PyStr.len psum <= 2000 /\ Forall (message_within 300) evs /\ PyStr.len logs <= 4000.
Proof.
  unfold gather. intros H.
  apply bind_ok in H as (pod_obj & s1 & _ & H).
  apply bind_ok in H as (evs' & s2 & Hev & H).
  apply bind_ok in H as (logs' & s3 & Hlog & H).
  apply bind_ok in H as (psum' & s4 & Hsum & H).
  apply lift_ok in Hsum as [Hsum _]. inversion H; subst.
  split; [eapply summarize_pod_len; eassumption|]. split.
  - destruct (Py.truthy (pod info)).
    + eapply fetch_pod_events_within; eassumption.
    + inversion Hev. constructor.
  - destruct (Py.truthy (pod info)).
    + eapply fetch_pod_logs_within; eassumption.
    + inversion Hlog. vm_compute. discriminate.
Qed.

(** The bounds on what a structured response carries. *)
Lemma recommend_within (rt : runtime) (payload : dict) (s s' : state)
    (a : alert_info) (ev : evidence) (text : string) :
  recommend rt payload s = (RespOk a ev text, s') ->
  PyStr.len (logs_tail ev) <= 4000
  /\ PyStr.len (pod_summary ev) <= 2000
  /\ Forall (message_within 300) (events ev)
  /\ len_within 500 (summary a).
Proof.
  unfold recommend.
  destruct (recommend_body rt payload s) as [[r|e] s1] eqn:Hbody;
    [|destruct ((inc (ReqTotal "error") ;;; inc LatObserve) s1); discriminate].
  intros H. inversion H; subst. clear H.
  unfold recommend_body in Hbody.
  apply bind_ok in Hbody as (info & s2 & Hex & Hbody).
  apply lift_ok in Hex as [Hex _].
  apply bind_ok in Hbody as ([[psum evs] logs] & s3 & Hg & Hbody).
  repeat (apply bind_ok in Hbody as (? & ? & _ & Hbody)).
  inversion Hbody; subst. simpl.
  destruct (gather_within _ _ _ _ _ _ _ Hg) as (Hs & He & Hl).
  split; [apply slice_to_len; lia|]. split; [assumption|]. split; [assumption|].
  now apply extract_summary_within with payload.
Qed.

(** C5.  The log tail has at most 4000 characters, each event record's
    message at most 300, the pod summary at most 2000, the extracted alert
    summary at most 500, and the runbook snippet at most [max_chars], 2000 by
    default. *)
Theorem size_bounds (rt : runtime) (s : state) (ns name : json) (payload : dict)
    (pod_obj : json) (runbooks q : string) (tail max_items max_chars : Z) :
  0 <= max_chars ->
  (forall out s', fetch_pod_logs rt ns name tail s = (Ok out, s') -> PyStr.len out <= 4000)
  /\ (forall out s', fetch_pod_events rt ns name max_items s = (Ok out, s') ->
                     Forall (message_within 300) out)
  /\ (forall out, summarize_pod pod_obj = Ok out -> PyStr.len out <= 2000)
  /\ (forall info, extract payload = Ok info -> len_within 500 (summary info))
  /\ PyStr.len (retrieve runbooks q max_chars) <= max_chars
  /\ PyStr.len (retrieve_default runbooks q) <= 2000
  /\ (forall a ev text s',
        recommend rt payload s = (RespOk a ev text, s') ->
        PyStr.len (logs_tail ev) <= 4000
        /\ PyStr.len (pod_summary ev) <= 2000
        /\ Forall (message_within 300) (events ev)
        /\ len_within 500 (summary a)).
Proof.
  intros Hmax.
  split; [intros out s'; apply fetch_pod_logs_within|].
  split; [intros out s'; apply fetch_pod_events_within|].
  split; [intros out; apply summarize_pod_len|].
  split; [intros info; apply extract_summary_within|].
  split; [now apply retrieve_within|].
  split; [apply retrieve_within; lia|].
  intros a ev text s'. apply recommend_within.
Qed.

Lemma size_bounds_witness :
  (exists out s',
     fetch_pod_logs listing_rt (JStr "prod") (JStr "web-1") 80 fresh = (Ok out, s')
     /\ PyStr.len out <= 4000)
  /\ (exists out s',
        fetch_pod_events listing_rt (JStr "prod") (JStr "web-1") 15 fresh = (Ok out, s')
        /\ Forall (message_within 300) out)
  /\ (exists out, summarize_pod waiting_pod = Ok out /\ PyStr.len out <= 2000)
  /\ (exists info, extract crashloop_payload = Ok info /\ len_within 500 (summary info))
  /\ PyStr.len (retrieve runbook_text "CrashLoop web-1" 10) <= 10
  /\ (exists a ev text s',
        recommend listing_rt crashloop_payload fresh = (RespOk a ev text, s')
        /\ PyStr.len (logs_tail ev) <= 4000
        /\ PyStr.len (pod_summary ev) <= 2000
        /\ Forall (message_within 300) (events ev)
        /\ len_within 500 (summary a)).
Proof.
  assert (0 <= 10) as Hmax by lia.
  destruct (size_bounds listing_rt fresh (JStr "prod") (JStr "web-1") crashloop_payload
              waiting_pod runbook_text "CrashLoop web-1" 80 15 10 Hmax)
    as (Hlogs & Hevents & Hsum & Hex & Hret & _ & Hrec).
  split; [eexists; eexists; split; [|eapply Hlogs]; vm_compute; reflexivity|].
  split; [eexists; eexists; split; [|eapply Hevents]; vm_compute; reflexivity|].
  split; [eexists; split; [|eapply Hsum]; vm_compute; reflexivity|].
  split; [eexists; split; [|eapply Hex]; vm_compute; reflexivity|].
  split; [exact Hret|].
  eexists. eexists. eexists. eexists. split; [|eapply Hrec]; vm_compute; reflexivity.
Defined.

Lemma retrieve_case_repeat_invariant_witness :
  retrieve runbook_text "Pod CrashLoopBackOff" 2000
  = retrieve runbook_text "pod crashloopbackoff" 2000.
Proof.
  apply retrieve_case_repeat_invariant. left. repeat constructor.
Defined.

(** The run of the spec's section 8: a repeated token weighs once. *)
Example retrieve_repeated_token :
  retrieve "Pod CrashLoopBackOff" "pod crashloop crashloop" 2000
  = retrieve "Pod CrashLoopBackOff" "pod crashloop" 2000.
Proof. vm_compute. reflexivity. Qed.

(** * Further properties *)

(** ** Alert extractor: shapes and errors *)

Lemma field_text (d : dict) (k : string) (default : json) :
  all_text d = true -> is_text default = true -> is_text (field d k default) = true.
Proof.
  unfold field. intros Hd Hdef. induction d as [|[k' v] r IH]; simpl; [assumption|].
  simpl in Hd. apply andb_true_iff in Hd as [Hv Hr].
  destruct (String.eqb k k'); [assumption|auto].
Qed.

(** X1.  For a payload whose first alert is an object with labels and
    annotations that are objects (or absent, or empty) and a summary and
    description that are texts (or absent, or null), [extract] returns the
    record [alert_of]: each label falls back on its synonym and then on its
    default only when the key is absent, so a label present with an empty
    value is kept.  When every label is a string, so are the six fields. *)
Theorem extract_shaped (payload a labels ann : dict) (rest : list json) :
  assoc_get "alerts" payload = Some (JArr (JObj a :: rest)) ->
  Py.or_ (field a "labels" JNull) (JObj []) = JObj labels ->
  Py.or_ (field a "annotations" JNull) (JObj []) = JObj ann ->
  text_or_null (assoc_get "summary" ann) = true ->
  text_or_null (assoc_get "description" ann) = true ->
  extract payload = Ok (alert_of labels ann)
  /\ (all_text labels = true -> alert_is_text (alert_of labels ann) = true).
Proof.
  intros Hal Hlb Han Hsum Hdesc. split.
  - unfold extract. simpl. rewrite Hal. simpl.
    fold (field a "labels" JNull). fold (field a "annotations" JNull).
    rewrite Hlb, Han. simpl. unfold get2. simpl.
    unfold alert_of, summary_text, stamp, field.
    destruct (assoc_get "summary" ann) as [[| | |[|]| |]|]; try discriminate;
      destruct (assoc_get "description" ann) as [[| | |[|]| |]|]; try discriminate;
        reflexivity.
  - intros Htext. unfold alert_is_text, alert_of. simpl.
    rewrite !field_text by (try assumption; try reflexivity; apply field_text; auto).
    reflexivity.
Qed.

Lemma extract_shaped_witness :
  extract [("alerts",
            JArr [JObj [("labels", JObj [("namespace", JStr ""); ("kubernetes_namespace", JStr "prod");
                                         ("pod_name", JStr "web-1")])]])]
  = Ok (alert_of [("namespace", JStr ""); ("kubernetes_namespace", JStr "prod");
                  ("pod_name", JStr "web-1")] [])
  /\ (all_text [("namespace", JStr ""); ("kubernetes_namespace", JStr "prod");
                ("pod_name", JStr "web-1")] = true ->
      alert_is_text (alert_of [("namespace", JStr ""); ("kubernetes_namespace", JStr "prod");
                               ("pod_name", JStr "web-1")] []) = true).
Proof.
  apply (extract_shaped _
           [("labels", JObj [("namespace", JStr ""); ("kubernetes_namespace", JStr "prod");
                             ("pod_name", JStr "web-1")])]
           _ [] []); reflexivity.
Defined.

(** X2.  [extract] reads the first alert only: two payloads whose [alerts]
    lists start with the same alert are extracted alike, whatever follows
    in the lists and whatever else the payloads hold. *)
Theorem extract_first_alert_only (p1 p2 : dict) (a : json) (r1 r2 : list json) :
  assoc_get "alerts" p1 = Some (JArr (a :: r1)) ->
  assoc_get "alerts" p2 = Some (JArr (a :: r2)) ->
  extract p1 = extract p2.
Proof.
  intros H1 H2. unfold extract. simpl. rewrite H1, H2. reflexivity.
Qed.

Lemma extract_first_alert_only_witness :
  extract [("alerts", JArr [JObj [("labels", JObj [("pod", JStr "web-1")])];
                            JObj [("labels", JObj [("pod", JStr "db-0")])]])]
  = extract [("receiver", JStr "aiops");
             ("alerts", JArr [JObj [("labels", JObj [("pod", JStr "web-1")])]])].
Proof.
  apply (extract_first_alert_only _ _ (JObj [("labels", JObj [("pod", JStr "web-1")])])
           [JObj [("labels", JObj [("pod", JStr "db-0")])]] []); reflexivity.
Defined.

Lemma recommend_extract_raises (rt : runtime) (payload : dict) (s : state) (e : exn) :
  extract payload = Raise e ->
  recommend rt payload s = (RespError e, with_metrics s [ReqTotal "error"; LatObserve]).
Proof.
  intros H. unfold recommend, recommend_body. rewrite H.
  unfold bind, lift, inc, with_metrics. simpl. rewrite <- app_assoc. reflexivity.
Qed.

Lemma extract_not_object (payload : dict) (a : json) (rest : list json) :
  assoc_get "alerts" payload = Some (JArr (a :: rest)) ->
  as_dict a = None ->
  extract payload = Raise AttributeError.
Proof.
  intros Hal Ha. unfold extract. simpl. rewrite Hal. simpl.
  destruct a; try reflexivity. discriminate.
Qed.

(** X3.  When the first alert of the payload is not an object, [extract]
    raises and [recommend] answers with the error response: nothing is asked
    of the cluster or of the completion service, no row is stored, and the
    request is counted as an error. *)
Theorem recommend_first_alert_not_object (rt : runtime) (payload : dict) (s : state)
    (a : json) (rest : list json) :
  assoc_get "alerts" payload = Some (JArr (a :: rest)) ->
  as_dict a = None ->
  extract payload = Raise AttributeError
  /\ recommend rt payload s
     = (RespError AttributeError, with_metrics s [ReqTotal "error"; LatObserve]).
Proof.
  intros Hal Ha.
  assert (extract payload = Raise AttributeError) as Hex by (eapply extract_not_object; eauto).
  split; [assumption|]. now apply recommend_extract_raises.
Qed.

Lemma recommend_first_alert_not_object_witness :
  extract [("alerts", JArr [JStr "web-1 is down"])] = Raise AttributeError
  /\ recommend listing_rt [("alerts", JArr [JStr "web-1 is down"])] fresh
     = (RespError AttributeError, with_metrics fresh [ReqTotal "error"; LatObserve]).
Proof.
  apply (recommend_first_alert_not_object listing_rt _ fresh (JStr "web-1 is down") []);
    reflexivity.
Defined.

(** ** Relevance retriever: a query without words *)

Lemma findall_wordless (q : string) :
  wordless q = true -> PyStr.findall (PyStr.lower q) = [].
Proof.
  unfold PyStr.findall. induction q as [|c r IH]; simpl; [reflexivity|].
  intros H. apply andb_true_iff in H as [Hc Hr].
  apply negb_true_iff in Hc. rewrite Hc. auto.
Qed.

Lemma retrieve_scan_no_tokens (chunks : list string) :
  retrieve_scan ∅ chunks = ("", 0%nat).
Proof.
  unfold retrieve_scan. induction chunks as [|x l IH]; [reflexivity|].
  simpl. unfold retrieve_step at 2. unfold score.
  rewrite intersection_empty_l_L, size_empty. simpl. exact IH.
Qed.

(** X4.  A query that holds no letter and no digit retrieves nothing,
    whatever the corpus and the bound. *)
Theorem retrieve_wordless_query (runbooks q : string) (max_chars : Z) :
  wordless q = true -> retrieve runbooks q max_chars = "".
Proof.
  intros H. unfold retrieve, tokens. rewrite (findall_wordless q H). simpl.
  rewrite retrieve_scan_no_tokens. reflexivity.
Qed.

Lemma retrieve_wordless_query_witness :
  retrieve runbook_text "-- ?! --" 2000 = "".
Proof. apply retrieve_wordless_query. reflexivity. Defined.

(** ** Cluster evidence client: what a query does to the state *)

Lemma after_nil (s : state) : after s [] [] = s.
Proof. destruct s. unfold after. simpl. now rewrite !app_nil_r. Qed.

Lemma after_after (s : state) (tr tr' : list k8s_event) (ms ms' : list metric) :
  after (after s tr ms) tr' ms' = after s (tr ++ tr') (ms ++ ms').
Proof. unfold after. simpl. now rewrite !app_assoc. Qed.

Lemma requests_app (tr tr' : list k8s_event) :
  requests (tr ++ tr') = (requests tr ++ requests tr')%list.
Proof.
  induction tr as [|[q ns name|url] r IH]; simpl; [reflexivity|assumption|now rewrite IH].
Qed.

Lemma client_effect_ret {A : Type} (rt : runtime) (a : A) : client_effect rt (ret a) 0 0.
Proof.
  intros s. exists (Ok a), [], []. rewrite after_nil. repeat split; auto.
Qed.

Lemma client_effect_lift {A : Type} (rt : runtime) (r : res A) : client_effect rt (lift r) 0 0.
Proof.
  intros s. exists r, [], []. rewrite after_nil. repeat split; auto.
Qed.

Lemma client_effect_invoke (rt : runtime) (q : query_kind) (ns name : json) :
  client_effect rt (emit (Invoke q ns name)) 0 0.
Proof.
  intros s. exists (Ok tt), [Invoke q ns name], [].
  unfold emit, after. rewrite app_nil_r. repeat split; auto.
Qed.

Lemma client_effect_bind {A B : Type} (rt : runtime) (m : M A) (f : A -> M B)
    (n1 k1 n2 k2 : nat) :
  client_effect rt m n1 k1 ->
  (forall a, client_effect rt (f a) n2 k2) ->
  client_effect rt (bind m f) (n1 + n2) (k1 + k2).
Proof.
  intros Hm Hf s. destruct (Hm s) as (r & tr & ms & Hrun & Hn & Hk & Hle & Hapi & Htok).
  unfold bind. rewrite Hrun. destruct r as [a|e].
  - destruct (Hf a (after s tr ms))
      as (r' & tr' & ms' & Hrun' & Hn' & Hk' & Hle' & Hapi' & Htok').
    exists r', (tr ++ tr')%list, (ms ++ ms')%list.
    rewrite Hrun', after_after, requests_app, !length_app, forallb_app, Hapi, Hapi'.
    repeat split; auto; try lia.
    intros Hnone. rewrite (Htok Hnone), (Htok' Hnone). reflexivity.
  - exists (Raise e), tr, ms. repeat split; auto; lia.
Qed.

Lemma client_effect_weaken {A : Type} (rt : runtime) (m : M A) (n k n' k' : nat) :
  client_effect rt m n k -> (n <= n')%nat -> (k <= k')%nat -> client_effect rt m n' k'.
Proof.
  intros Hm Hn Hk s. destruct (Hm s) as (r & tr & ms & Hrun & ? & ? & ? & ? & ?).
  exists r, tr, ms. repeat split; auto; lia.
Qed.

Lemma kind_of_api_path (path : string) :
  String.prefix "/api/" path = true -> kind_of_path path = "api".
Proof.
  unfold kind_of_path. intros H. rewrite H.
  apply String.prefix_correct in H.
  destruct path as [|c1 [|c2 [|c3 [|c4 [|c5 rest]]]]]; simpl in H; try discriminate.
  injection H as -> -> -> -> -> _. reflexivity.
Qed.

(** [k8s_get] from any state, by what the token file and the request
    construction do. *)
Lemma k8s_get_run (rt : runtime) (path : string) (timeout : Z) (s : state) :
  match sa_token_file rt with
  | None => k8s_get rt path timeout s = (Ok JNull, s)
  | Some (Raise e) => k8s_get rt path timeout s = (Raise e, s)
  | Some (Ok raw) =>
      match request_fault rt (api_base rt ++ path) with
      | Some e => k8s_get rt path timeout s = (Raise e, s)
      | None =>
          exists data status,
            k8s_get rt path timeout s
            = (Ok data, after s [Request (api_base rt ++ path)]
                          [K8sTotal (kind_of_path path) status])
            /\ (status = "success" \/ (status = "error" /\ data = JNull))
      end
  end.
Proof.
  unfold k8s_get. destruct (sa_token_file rt) as [[raw|e]|]; try reflexivity.
  unfold bind at 1. unfold lift at 1. cbv beta iota.
  unfold build_request. fold (api_base rt).
  destruct (request_fault rt (api_base rt ++ path)) as [e|]; [reflexivity|].
  unfold bind at 1. unfold lift at 1. cbv beta iota.
  destruct (urlopen rt (api_base rt ++ path) ("Bearer " ++ PyStr.strip raw) timeout)
    as [f|b].
  - exists JNull, "error". split; [reflexivity|]. auto.
  - destruct (utf8_strict b) as [text|].
    + destruct (json_loads rt text) as [data|].
      * exists data, "success". split; [reflexivity|]. auto.
      * exists JNull, "error". split; [reflexivity|]. auto.
    + exists JNull, "error". split; [reflexivity|]. auto.
Qed.

Lemma client_effect_k8s_get (rt : runtime) (path : string) (timeout : Z) :
  String.prefix "/api/" path = true -> client_effect rt (k8s_get rt path timeout) 1 1.
Proof.
  intros Hpath s. pose proof (k8s_get_run rt path timeout s) as Hrun.
  destruct (sa_token_file rt) as [[raw|e]|] eqn:Htok.
  - destruct (request_fault rt (api_base rt ++ path)) as [e|].
    + exists (Raise e), [], []. rewrite after_nil. repeat split; auto.
    + destruct Hrun as (data & status & Hrun & Hst).
      exists (Ok data), [Request (api_base rt ++ path)],
        [K8sTotal (kind_of_path path) status].
      split; [exact Hrun|]. rewrite (kind_of_api_path path Hpath).
      destruct Hst as [->|[-> _]]; simpl; repeat split; auto; discriminate.
  - exists (Raise e), [], []. rewrite after_nil. repeat split; auto.
  - exists (Ok JNull), [], []. rewrite after_nil. repeat split; auto.
Qed.

Lemma client_effect_fetch_pod (rt : runtime) (ns name : json) :
  client_effect rt (fetch_pod rt ns name) 1 1.
Proof.
  unfold fetch_pod.
  apply (client_effect_bind rt _ _ 0 0 1 1); [apply client_effect_invoke|]. intros _.
  destruct (negb _); [eapply client_effect_weaken; [apply client_effect_ret|lia|lia]|].
  apply (client_effect_bind rt _ _ 0 0 1 1); [apply client_effect_lift|]. intros qn.
  apply (client_effect_bind rt _ _ 0 0 1 1); [apply client_effect_lift|]. intros qp.
  apply client_effect_k8s_get. reflexivity.
Qed.

Lemma client_effect_fetch_pod_events (rt : runtime) (ns name : json) (max_items : Z) :
  client_effect rt (fetch_pod_events rt ns name max_items) 1 1.
Proof.
  unfold fetch_pod_events.
  apply (client_effect_bind rt _ _ 0 0 1 1); [apply client_effect_invoke|]. intros _.
  destruct (negb _); [eapply client_effect_weaken; [apply client_effect_ret|lia|lia]|].
  apply (client_effect_bind rt _ _ 0 0 1 1); [apply client_effect_lift|]. intros qn.
  apply (client_effect_bind rt _ _ 1 1 0 0); [apply client_effect_k8s_get; reflexivity|].
  intros data.
  apply (client_effect_bind rt _ _ 0 0 0 0); [apply client_effect_lift|]. intros it.
  apply (client_effect_bind rt _ _ 0 0 0 0); [apply client_effect_lift|]. intros sorted.
  apply client_effect_lift.
Qed.

Lemma client_effect_fetch_pod_logs (rt : runtime) (ns name : json) (tail : Z) :
  client_effect rt (fetch_pod_logs rt ns name tail) 1 0.
Proof.
  unfold fetch_pod_logs.
  apply (client_effect_bind rt _ _ 0 0 1 0); [apply client_effect_invoke|]. intros _.
  destruct (negb _); [eapply client_effect_weaken; [apply client_effect_ret|lia|lia]|].
  destruct (sa_token_file rt) as [read|] eqn:Htok;
    [|eapply client_effect_weaken; [apply client_effect_ret|lia|lia]].
  apply (client_effect_bind rt _ _ 0 0 1 0); [apply client_effect_lift|]. intros raw.
  apply (client_effect_bind rt _ _ 0 0 1 0); [apply client_effect_lift|]. intros qn.
  apply (client_effect_bind rt _ _ 0 0 1 0); [apply client_effect_lift|]. intros qp.
  apply (client_effect_bind rt _ _ 0 0 1 0); [apply client_effect_lift|]. intros _.
  intros s. unfold bind, emit, ret.
  destruct (urlopen rt _ _ 6) as [f|b];
    eexists; exists [Request (PyStr.rstrip_slash (k8s_api rt) ++ "/api/v1/namespaces/" ++ qn
                              ++ "/pods/" ++ qp ++ "/log?tailLines=" ++ pretty tail)], [];
    unfold after; simpl; rewrite app_nil_r; (split; [reflexivity|]); repeat split; auto;
    rewrite Htok; discriminate.
Qed.

Lemma client_effect_gather (rt : runtime) (info : alert_info) :
  client_effect rt (gather rt info) 3 2.
Proof.
  unfold gather.
  apply (client_effect_bind rt _ _ 1 1 2 1).
  { destruct (Py.truthy (pod info));
      [apply client_effect_fetch_pod
      |eapply client_effect_weaken; [apply client_effect_ret|lia|lia]]. }
  intros pod_obj.
  apply (client_effect_bind rt _ _ 1 1 1 0).
  { destruct (Py.truthy (pod info));
      [apply client_effect_fetch_pod_events
      |eapply client_effect_weaken; [apply client_effect_ret|lia|lia]]. }
  intros evs.
  apply (client_effect_bind rt _ _ 1 0 0 0).
  { destruct (Py.truthy (pod info));
      [apply client_effect_fetch_pod_logs
      |eapply client_effect_weaken; [apply client_effect_ret|lia|lia]]. }
  intros logs.
  apply (client_effect_bind rt _ _ 0 0 0 0); [apply client_effect_lift|]. intros psum.
  apply client_effect_ret.
Qed.



(** X6.  The counter of Kubernetes calls is labelled by the first segment
    of the path: ["api"] for every path under [/api/], and ["get"] for any
    other path. *)
Theorem k8s_counter_kind (path : string) :
  (String.prefix "/api/" path = true -> kind_of_path path = "api")
  /\ (String.prefix "/api/" path = false -> kind_of_path path = "get").
Proof.
  split; [apply kind_of_api_path|].
  intros H. unfold kind_of_path. rewrite H. reflexivity.
Qed.

Lemma k8s_counter_kind_witness :
  kind_of_path "/api/v1/namespaces/prod/events?fieldSelector=x" = "api"
  /\ kind_of_path "/apis/apps/v1/deployments" = "get".
Proof.
  split.
  - apply (proj1 (k8s_counter_kind _)). reflexivity.
  - apply (proj2 (k8s_counter_kind _)). reflexivity.
Defined.

(** X7.  The log query is not counted: whatever it returns or raises,
    [fetch_pod_logs] leaves the counters and the rows as they were, and it
    sends at most one request. *)
Theorem fetch_pod_logs_uncounted (rt : runtime) (ns name : json) (tail : Z) (s : state) :
  metrics (snd (fetch_pod_logs rt ns name tail s)) = metrics s
  /\ rows (snd (fetch_pod_logs rt ns name tail s)) = rows s
  /\ exists tr,
       trace (snd (fetch_pod_logs rt ns name tail s)) = (trace s ++ tr)%list
       /\ (length (requests tr) <= 1)%nat.
Proof.
  destruct (client_effect_fetch_pod_logs rt ns name tail s)
    as (r & tr & ms & Hrun & Hn & Hk & _).
  rewrite Hrun. simpl. destruct ms; [|simpl in Hk; lia].
  rewrite app_nil_r. split; [reflexivity|]. split; [reflexivity|]. eauto.
Qed.

Lemma and_false_left (ns name : json) :
  Py.truthy ns = false -> negb (Py.truthy (Py.and_ ns name)) = true.
Proof. intros H. unfold Py.and_. rewrite H. now rewrite H. Qed.

(** X8.  For an alert whose namespace is empty (or otherwise false) the
    evidence is the empty one even though the alert names a pod: the three
    queries return at their guard and no request is sent, whatever the
    runtime. *)
Theorem gather_without_namespace (rt : runtime) (info : alert_info) (s : state) :
  Py.truthy (namespace info) = false ->
  exists tr,
    gather rt info s = (Ok ("(pod not fetched)", [], ""), after s tr [])
    /\ requests tr = [].
Proof.
  intros Hns. destruct (Py.truthy (pod info)) eqn:Hpod.
  - exists [Invoke QPod (namespace info) (pod info);
            Invoke QEvents (namespace info) (pod info);
            Invoke QLogs (namespace info) (pod info)].
    split; [|reflexivity].
    unfold gather. rewrite Hpod.
    unfold fetch_pod, fetch_pod_events, fetch_pod_logs.
    rewrite (and_false_left _ (pod info) Hns).
    unfold bind, emit, ret, lift, after. simpl.
    rewrite <- !app_assoc, app_nil_r. reflexivity.
  - exists []. rewrite after_nil. split; [|reflexivity].
    now apply gather_without_pod.
Qed.

Lemma gather_without_namespace_witness :
  exists tr,
    gather listing_rt
      {| alertname := JStr "CrashLoop"; severity := JStr "critical"; namespace := JStr "";
         pod := JStr "web-1"; deployment := JStr ""; summary := JStr "" |} fresh
    = (Ok ("(pod not fetched)", [], ""), after fresh tr [])
    /\ requests tr = [].
Proof. apply gather_without_namespace. reflexivity. Defined.

(** ** The handler: what a request does to the state *)

Lemma recommend_gather_raises (rt : runtime) (payload : dict) (s s1 : state)
    (info : alert_info) (e : exn) :
  extract payload = Ok info ->
  gather rt info s = (Raise e, s1) ->
  recommend rt payload s = (RespError e, with_metrics s1 [ReqTotal "error"; LatObserve]).
Proof.
  intros Hex Hg. unfold recommend, recommend_body. rewrite Hex.
  unfold bind at 1. unfold lift at 1. unfold bind at 1. rewrite Hg.
  unfold bind, inc, with_metrics. simpl. rewrite <- app_assoc. reflexivity.
Qed.

Lemma complete_counted (rt : runtime) (user : string) (s : state) :
  exists text m,
    complete rt user s = (Ok text, with_metrics s [m]) /\ is_completion_counter m = true.
Proof.
  unfold complete.
  destruct (completion rt (model_name rt) system_prompt user) as [text|msg];
    eexists; eexists; split; reflexivity.
Qed.

(** Every run of [recommend]: the events and the counters of the queries,
    then the completion counter when the call was reached, then the
    request counter and the latency; a row with a structured response
    only. *)
Lemma recommend_outcome (rt : runtime) (payload : dict) (s : state) :
  exists tr ms cs status new_rows,
    snd (recommend rt payload s)
    = {| trace := trace s ++ tr;
         metrics := metrics s ++ ms ++ cs ++ [ReqTotal status; LatObserve];
         rows := rows s ++ new_rows |}
    /\ (length (requests tr) <= 3)%nat
    /\ (length ms <= 2)%nat
    /\ (length ms <= length (requests tr))%nat
    /\ forallb is_api_counter ms = true
    /\ (sa_token_file rt = None -> requests tr = [])
    /\ (length cs <= 1)%nat
    /\ forallb is_completion_counter cs = true
    /\ match fst (recommend rt payload s) with
       | RespOk info k8s text =>
           status = "success" /\ new_rows = [row_of rt payload info text k8s]
       | RespError _ => status = "error" /\ new_rows = []
       end.
Proof.
  destruct (extract payload) as [info|e] eqn:Hex.
  - destruct (client_effect_gather rt info s)
      as ([[[psum evs] logs]|e] & tr & ms & Hg & Hn & Hk & Hle & Hapi & Htok).
    + destruct (complete_counted rt
                  (user_prompt rt info psum evs logs
                     (retrieve (load_runbooks rt) (runbook_query info) 2000))
                  (after s tr ms)) as (text & m & Hc & Hm).
      destruct (recommend_run rt payload s _ _ info _ _ _ _ Hex Hg Hc)
        as [(e & _ & Hr)|(_ & Hr)]; rewrite Hr.
      * exists tr, ms, [m], "error", []. simpl. rewrite Hm.
        unfold with_metrics, after. simpl. rewrite !app_nil_r, <- !app_assoc.
        repeat split; auto.
      * exists tr, ms, [m], "success", [row_of rt payload info text
                                          {| pod_summary := psum; events := evs;
                                             logs_tail := PyStr.slice_to 4000 logs |}].
        simpl. rewrite Hm. unfold with_metrics, with_row, after. simpl.
        rewrite <- !app_assoc. repeat split; auto.
    + rewrite (recommend_gather_raises rt payload s _ info e Hex Hg).
      exists tr, ms, [], "error", []. simpl.
      unfold with_metrics, after. simpl. rewrite !app_nil_r, <- !app_assoc.
      repeat split; auto.
  - rewrite (recommend_extract_raises rt payload s e Hex).
    exists [], [], [], "error", []. simpl. rewrite !app_nil_r.
    repeat split; auto; lia.
Qed.

(** X9.  A structured response leaves exactly one new row, the one built
    from the alert, the recommendation and the evidence of that response;
    an error response leaves the rows as they were. *)
Theorem recommend_rows (rt : runtime) (payload : dict) (s : state) :
  match fst (recommend rt payload s) with
  | RespOk info k8s text =>
      rows (snd (recommend rt payload s))
      = (rows s ++ [row_of rt payload info text k8s])%list
  | RespError _ => rows (snd (recommend rt payload s)) = rows s
  end.
Proof.
  destruct (recommend_outcome rt payload s)
    as (tr & ms & cs & status & new_rows & Hs & _ & _ & _ & _ & _ & _ & _ & Hresp).
  rewrite Hs. simpl.
  destruct (fst (recommend rt payload s)) as [info k8s text|e];
    destruct Hresp as [_ ->]; [reflexivity|apply app_nil_r].
Qed.

(** X10.  Every request is counted once and timed once, last of all: the
    counters a request adds end with one increment of the request counter,
    under [success] for a structured response and under [error] for an
    error response, and one latency observation; before them come at most
    two increments of the Kubernetes counter, all under the kind [api],
    and at most one of the completion counter. *)
Theorem recommend_counted_once (rt : runtime) (payload : dict) (s : state) :
  exists ms cs,
    metrics (snd (recommend rt payload s))
    = (metrics s ++ ms ++ cs
       ++ [ReqTotal (match fst (recommend rt payload s) with
                     | RespOk _ _ _ => "success"
                     | RespError _ => "error"
                     end);
           LatObserve])%list
    /\ (length ms <= 2)%nat /\ forallb is_api_counter ms = true
    /\ (length cs <= 1)%nat /\ forallb is_completion_counter cs = true.
Proof.
  destruct (recommend_outcome rt payload s)
    as (tr & ms & cs & status & new_rows & Hs & _ & Hk & _ & Hapi & _ & Hc & Hcs & Hresp).
  exists ms, cs. rewrite Hs. simpl.
  destruct (fst (recommend rt payload s)) as [info k8s text|e];
    destruct Hresp as [-> _]; auto.
Qed.

(** X11.  A request sends at most three requests to the cluster, one per
    query, and none at all when there is no token file. *)
Theorem recommend_requests (rt : runtime) (payload : dict) (s : state) :
  exists tr,
    trace (snd (recommend rt payload s)) = (trace s ++ tr)%list
    /\ (length (requests tr) <= 3)%nat
    /\ (sa_token_file rt = None -> requests tr = []).
Proof.
  destruct (recommend_outcome rt payload s)
    as (tr & ms & cs & status & new_rows & Hs & Hn & _ & _ & _ & Htok & _).
  exists tr. rewrite Hs. auto.
Qed.




Lemma take_all (k : Z) (s : string) : PyStr.len s <= k -> PyStr.take k s = s.
Proof.
  revert k. induction s as [|c r IH]; intros k; [reflexivity|].
  unfold PyStr.len in *. simpl String.length. intros H. simpl.
  destruct (k <=? 0) eqn:E; [apply Z.leb_le in E; lia|].
  rewrite IH; [reflexivity|lia].
Qed.

(** X13.  The log tail that [recommend] cuts again to 4000 characters is
    already within them: the second cut changes nothing, so the log tail of
    the response is the text the log query returned. *)
Theorem logs_cut_once (rt : runtime) (info : alert_info) (s s1 : state)
    (psum logs : string) (evs : list json) :
  gather rt info s = (Ok (psum, evs, logs), s1) ->
  PyStr.slice_to 4000 logs = logs.
Proof.
  intros Hg. destruct (gather_within _ _ _ _ _ _ _ Hg) as (_ & _ & Hl).
  unfold PyStr.slice_to. simpl. now apply take_all.
Qed.

Lemma logs_cut_once_witness :
  PyStr.slice_to 4000 "{...}" = "{...}".
Proof.
  apply (logs_cut_once listing_rt web_alert fresh
           (snd (gather listing_rt web_alert fresh))
           "phase=" "{...}"
           (ok_or (fst (fetch_pod_events listing_rt (JStr "prod") (JStr "web-1") 15 fresh)) [])).
  vm_compute. reflexivity.
Defined.

(** ** Resource state summarizer: the first line *)

Ltac res_steps :=
  repeat match goal with
         | H : res_bind _ _ = Ok _ |- _ => res_step H
         | H : (if ?b then _ else _) = Ok _ |- _ => destruct b
         | H : Ok _ = Ok _ |- _ => inversion H; subst; clear H
         end.

Lemma container_lines_extend (cs : json) (lines out : list string) :
  container_lines cs lines = Ok out -> exists more, out = (lines ++ more)%list.
Proof.
  unfold container_lines, terminated_lines, append. intros H. res_steps;
    rewrite <- ?app_assoc; eexists; reflexivity.
Qed.

Lemma join_head (sep a x : string) (more : list string) :
  PyStr.join sep ((a ++ x) :: more) = a ++ PyStr.join sep (x :: more).
Proof.
  destruct more as [|y r]; [reflexivity|].
  change (PyStr.join sep ((a ++ x) :: y :: r)) with ((a ++ x) ++ sep ++ PyStr.join sep (y :: r)).
  change (PyStr.join sep (x :: y :: r)) with (x ++ sep ++ PyStr.join sep (y :: r)).
  apply str_app_assoc.
Qed.

Lemma slice_phase (y : string) :
  PyStr.slice_to 2000 ("phase=" ++ y) = "phase=" ++ PyStr.take 1994 y.
Proof. reflexivity. Qed.

(** X14.  A summary is either the sentinel ["(pod not fetched)"] or a text
    that starts with the phase line: whatever the pod object holds, the
    first thing printed is [phase=]. *)
Theorem summarize_pod_starts_with_phase (pod_obj : json) (out : string) :
  summarize_pod pod_obj = Ok out ->
  out = "(pod not fetched)" \/ exists rest, out = "phase=" ++ rest.
Proof.
  unfold summarize_pod. destruct (negb (Py.truthy pod_obj)).
  - intros H. inversion H. now left.
  - intros H. right. res_steps. unfold summary_lines in *. res_steps.
    + match goal with
      | Hc : container_lines _ _ = Ok _ |- _ =>
          apply container_lines_extend in Hc as [more ->]
      end.
      simpl app. rewrite join_head, slice_phase. eauto.
    + rewrite join_head, slice_phase. eauto.
Qed.

Lemma summarize_pod_starts_with_phase_witness :
  PyStr.slice_to 2000 (PyStr.join PyStr.nl
                         ["phase=Running"; "container=web"; "restartCount=7";
                          "state.waiting.reason=CrashLoopBackOff"; "state.waiting.message="])
  = "(pod not fetched)"
  \/ exists rest,
       PyStr.slice_to 2000 (PyStr.join PyStr.nl
                              ["phase=Running"; "container=web"; "restartCount=7";
                               "state.waiting.reason=CrashLoopBackOff";
                               "state.waiting.message="])
       = "phase=" ++ rest.
Proof.
  apply (summarize_pod_starts_with_phase waiting_pod). vm_compute. reflexivity.
Defined.

(** ** Cluster evidence client: shape and order of the records *)

Lemma event_record_keys (e r : json) : event_record e = Ok r -> five_keys r.
Proof.
  unfold event_record. intros H. res_steps. unfold five_keys. eauto 10.
Qed.

Lemma event_records_keys (l out : list json) :
  event_records l = Ok out -> Forall five_keys out.
Proof.
  revert out. induction l as [|e l IH]; simpl; intros out H.
  - inversion H. constructor.
  - res_steps. constructor; [eapply event_record_keys; eassumption|auto].
Qed.

(** X15.  Every record that [fetch_pod_events] returns is an object with
    exactly the keys [type], [reason], [message], [count] and
    [lastTimestamp], in that order, whatever the API listed. *)
Theorem fetch_pod_events_record_keys (rt : runtime) (ns name : json) (max_items : Z)
    (s s' : state) (out : list json) :
  fetch_pod_events rt ns name max_items s = (Ok out, s') ->
  Forall five_keys out.
Proof.
  unfold fetch_pod_events. intros H.
  apply bind_ok in H as (? & s1 & _ & H).
  destruct (negb _).
  - inversion H. constructor.
  - repeat (apply bind_ok in H as (? & ? & _ & H)).
    apply lift_ok in H as [H _]. eapply event_records_keys; eassumption.
Qed.

Lemma fetch_pod_events_record_keys_witness :
  Forall five_keys
    (map listed_record
       [JObj [("lastTimestamp", JNull); ("eventTime", JStr "2024-05-01T12:00:00.000000Z");
              ("reason", JStr "BackOff");
              ("message", JStr "Back-off restarting failed container")]]).
Proof.
  apply (fetch_pod_events_record_keys listing_rt (JStr "prod") (JStr "web-1") 1 fresh
           (snd (fetch_pod_events listing_rt (JStr "prod") (JStr "web-1") 1 fresh))).
  vm_compute. reflexivity.
Defined.

Lemma ltb_irrefl (a : string) : String.ltb a a = false.
Proof.
  unfold String.ltb. pose proof (String.compare_antisym a a) as H.
  destruct (String.compare a a); simpl in H; try reflexivity; discriminate.
Qed.

Lemma stamped_cons (k : string) (x : json) (l : list json) :
  stamped k (x :: l) = if String.eqb (recency x) k then x :: stamped k l else stamped k l.
Proof. reflexivity. Qed.

Lemma insert_desc_stamped (k : string) (x : json) (l : list json) (out : list (json * json)) :
  insert_desc (with_key x) (map with_key l) = Ok out ->
  stamped k (map snd out) = stamped k (x :: l).
Proof.
  revert out. induction l as [|y r IH]; intros out.
  - simpl. intros H. inversion H. reflexivity.
  - change (insert_desc (with_key x) (map with_key (y :: r)))
      with (if String.ltb (recency x) (recency y)
            then (let? r' := insert_desc (with_key x) (map with_key r) in Ok (with_key y :: r'))
            else Ok (with_key x :: with_key y :: map with_key r)).
    destruct (String.ltb (recency x) (recency y)) eqn:E.
    + intros H. res_step H. inversion H; subst. clear H.
      change (map snd (with_key y :: v)) with (y :: map snd v).
      rewrite !stamped_cons, (IH v Hv), stamped_cons.
      destruct (String.eqb (recency y) k) eqn:Ey; [|reflexivity].
      destruct (String.eqb (recency x) k) eqn:Ex; [|reflexivity].
      apply String.eqb_eq in Ey, Ex. rewrite Ey, Ex, ltb_irrefl in E. discriminate.
    + intros H. inversion H; subst.
      change (map snd (with_key x :: with_key y :: map with_key r))
        with (x :: y :: map snd (map with_key r)).
      now rewrite map_snd_with_key.
Qed.

Lemma sort_desc_stamped (k : string) (l : list json) (out : list (json * json)) :
  sort_desc (map with_key l) = Ok out ->
  stamped k (map snd out) = stamped k l.
Proof.
  revert out. induction l as [|x r IH]; intros out; simpl.
  - intros H. inversion H. reflexivity.
  - intros H. res_step H.
    destruct (sort_desc_listed r) as (r' & Hsort & _).
    rewrite Hsort in Hv. inversion Hv; subst. clear Hv.
    rewrite (insert_desc_stamped k x r' out H), !stamped_cons.
    specialize (IH _ Hsort). rewrite map_snd_with_key in IH. now rewrite IH.
Qed.

(** X16.  The sort of [fetch_pod_events] is stable: among the listed events
    that share a recency key, the order of the API's list is kept. *)
Theorem sort_items_stable (items sorted : list json) (k : string) :
  Forall (fun e => event_ok e = true) items ->
  sort_items (JArr items) = Ok sorted ->
  stamped k sorted = stamped k items.
Proof.
  intros Hok. unfold sort_items. rewrite (keyed_listed items Hok). simpl.
  intros H. res_step H. inversion H; subst.
  now apply sort_desc_stamped.
Qed.

Lemma sort_items_stable_witness :
  stamped "2024-05-01T10:00:00Z"
    [JObj [("lastTimestamp", JStr "2024-05-01T11:00:00Z"); ("reason", JStr "Started")];
     JObj [("lastTimestamp", JStr "2024-05-01T10:00:00Z"); ("reason", JStr "Pulling")];
     JObj [("eventTime", JStr "2024-05-01T10:00:00Z"); ("reason", JStr "Pulled")]]
  = stamped "2024-05-01T10:00:00Z"
      [JObj [("lastTimestamp", JStr "2024-05-01T10:00:00Z"); ("reason", JStr "Pulling")];
       JObj [("lastTimestamp", JStr "2024-05-01T11:00:00Z"); ("reason", JStr "Started")];
       JObj [("eventTime", JStr "2024-05-01T10:00:00Z"); ("reason", JStr "Pulled")]].
Proof.
  apply sort_items_stable.
  - repeat constructor.
  - vm_compute. reflexivity.
Defined.

(** ** The handler: completion answered, storage down *)

Lemma complete_answered (rt : runtime) (user text : string) (s : state) :
  completion rt (model_name rt) system_prompt user = Completed text ->
  complete rt user s = (Ok text, with_metrics s [OpenaiTotal "success"]).
Proof. intros H. unfold complete. rewrite H. reflexivity. Qed.

(** X17.  When the completion service answers, its text is the
    recommendation, unchanged: it is what the response carries and what the
    stored row holds, and the call is counted as a success. *)
Theorem completion_text_passed_through (rt : runtime) (payload : dict) (s s1 : state)
    (info : alert_info) (psum logs : string) (evs : list json) (text : string) :
  extract payload = Ok info ->
  gather rt info s = (Ok (psum, evs, logs), s1) ->
  completion rt (model_name rt) system_prompt
    (user_prompt rt info psum evs logs (retrieve (load_runbooks rt) (runbook_query info) 2000))
  = Completed text ->
  storage_fault rt = None ->
  bindable info = true ->
  let k8s := {| pod_summary := psum; events := evs; logs_tail := PyStr.slice_to 4000 logs |} in
  recommend rt payload s
  = (RespOk info k8s text,
     with_metrics (with_row (with_metrics s1 [OpenaiTotal "success"])
                            (row_of rt payload info text k8s))
                  [ReqTotal "success"; LatObserve]).
Proof.
  intros Hex Hg Hc Hst Hb k8s.
  destruct (recommend_run rt payload s s1 _ info _ _ _ _ Hex Hg (complete_answered rt _ text s1 Hc))
    as [(e & Hp & _)|(_ & Hr)].
  - fold k8s in Hp. rewrite (persist_ok rt payload info text _ _ Hst Hb) in Hp. discriminate.
  - exact Hr.
Qed.

Lemma completion_text_passed_through_witness :
  recommend unreachable_rt [] fresh
  = (RespOk default_alert no_evidence "check the pod",
     with_metrics (with_row (with_metrics fresh [OpenaiTotal "success"])
                            (row_of unreachable_rt [] default_alert "check the pod" no_evidence))
                  [ReqTotal "success"; LatObserve]).
Proof.
  apply (completion_text_passed_through unreachable_rt [] fresh fresh default_alert
           "(pod not fetched)" "" [] "check the pod"); reflexivity.
Defined.



(** ** Cluster evidence client: the base URL *)

Lemma rev_app_app (a b acc : string) :
  String.rev_app (a ++ b) acc = String.rev_app b (String.rev_app a acc).
Proof.
  revert acc. induction a as [|c a IH]; intros acc; [reflexivity|].
  change (String.rev_app (a ++ b) (String c acc)
          = String.rev_app b (String.rev_app a (String c acc))).
  apply IH.
Qed.

Lemma rstrip_slash_snoc (base : string) :
  PyStr.rstrip_slash (base ++ "/") = PyStr.rstrip_slash base.
Proof.
  unfold PyStr.rstrip_slash, PyStr.rstrip_with, String.rev.
  rewrite rev_app_app. reflexivity.
Qed.

(** X19.  A slash at the end of [K8S_API] does not change what is asked of
    the cluster: [k8s_get] and [fetch_pod_logs] run alike with the base URL
    and with the base URL followed by a slash. *)
Theorem k8s_api_trailing_slash (rt : runtime) (base path : string) (timeout tail : Z)
    (ns name : json) (s : state) :
  k8s_get (with_api rt (base ++ "/")) path timeout s
  = k8s_get (with_api rt base) path timeout s
  /\ fetch_pod_logs (with_api rt (base ++ "/")) ns name tail s
     = fetch_pod_logs (with_api rt base) ns name tail s.
Proof.
  split.
  - unfold k8s_get. simpl. now rewrite rstrip_slash_snoc.
  - unfold fetch_pod_logs, quote. simpl. now rewrite rstrip_slash_snoc.
Qed.

(** ** Bounds that compose *)

Lemma str_take_take (m m' : Z) (s : string) :
  m <= m' -> PyStr.take m (PyStr.take m' s) = PyStr.take m s.
Proof.
  revert m m'. induction s as [|c r IH]; intros m m' H; [reflexivity|].
  simpl. destruct (m' <=? 0) eqn:E'.
  - apply Z.leb_le in E'. assert ((m <=? 0) = true) as -> by (apply Z.leb_le; lia).
    reflexivity.
  - simpl. destruct (m <=? 0); [reflexivity|]. rewrite IH; [reflexivity|lia].
Qed.

(** X20.  Cutting a longer snippet gives the shorter one: for bounds
    [0 <= m <= m'], the first [m] characters of what [retrieve] returns
    under the bound [m'] are what it returns under the bound [m]. *)
Theorem retrieve_bounds_compose (runbooks q : string) (m m' : Z) :
  0 <= m -> m <= m' ->
  PyStr.slice_to m (retrieve runbooks q m') = retrieve runbooks q m.
Proof.
  intros H0 Hle. unfold retrieve.
  destruct (PyStr.truthy (fst (retrieve_scan (tokens q) (PyStr.split_blank runbooks)))).
  - unfold PyStr.slice_to.
    assert ((0 <=? m) = true) as -> by (apply Z.leb_le; lia).
    assert ((0 <=? m') = true) as -> by (apply Z.leb_le; lia).
    now apply str_take_take.
  - unfold PyStr.slice_to.
    assert ((0 <=? m) = true) as -> by (apply Z.leb_le; lia). reflexivity.
Qed.

Lemma retrieve_bounds_compose_witness :
  PyStr.slice_to 5 (retrieve runbook_text "CrashLoopBackOff" 2000)
  = retrieve runbook_text "CrashLoopBackOff" 5.
Proof. apply retrieve_bounds_compose; lia. Defined.

Lemma event_records_take (n : nat) (l out : list json) :
  event_records l = Ok out -> event_records (take n l) = Ok (take n out).
Proof.
  revert n out. induction l as [|e l IH]; intros n out H.
  - simpl in H. inversion H. now rewrite !take_nil.
  - simpl in H. res_steps. destruct n as [|n]; [reflexivity|].
    simpl. match goal with Hr : event_record e = Ok _ |- _ => rewrite Hr end.
    simpl. erewrite IH by eassumption. reflexivity.
Qed.

(** X21.  Asking for fewer events returns the head of the longer answer:
    when [fetch_pod_events] returns [out] under the bound [m'], then under
    a bound [0 <= m <= m'] it returns the first [m] records of [out], and
    leaves the same state. *)
Theorem fetch_pod_events_bounds_compose (rt : runtime) (ns name : json) (m m' : Z)
    (s s' : state) (out : list json) :
  0 <= m -> m <= m' ->
  fetch_pod_events rt ns name m' s = (Ok out, s') ->
  fetch_pod_events rt ns name m s = (Ok (take (Z.to_nat m) out), s').
Proof.
  intros H0 Hle. unfold fetch_pod_events. intros H.
  apply bind_ok in H as ([] & s1 & He & H). unfold bind at 1. rewrite He.
  destruct (negb _).
  - inversion H; subst. now rewrite take_nil.
  - apply bind_ok in H as (qn & s2 & Hq & H). unfold bind at 1. rewrite Hq.
    apply bind_ok in H as (data & s3 & Hd & H). unfold bind at 1. rewrite Hd.
    apply bind_ok in H as (it & s4 & Hi & H). unfold bind at 1. rewrite Hi.
    apply bind_ok in H as (sorted & s5 & Hs & H). unfold bind at 1. rewrite Hs.
    apply lift_ok in H as [H ->]. unfold lift. f_equal.
    unfold Py.list_slice_to in *.
    assert ((0 <=? m) = true) as -> by (apply Z.leb_le; lia).
    assert ((0 <=? m') = true) as Hm' by (apply Z.leb_le; lia). rewrite Hm' in H.
    replace (take (Z.to_nat m) sorted)
      with (take (Z.to_nat m) (take (Z.to_nat m') sorted))
      by (rewrite take_take; f_equal; lia).
    now apply event_records_take.
Qed.

Lemma fetch_pod_events_bounds_compose_witness :
  fetch_pod_events listing_rt (JStr "prod") (JStr "web-1") 1 fresh
  = (Ok (take (Z.to_nat 1)
           (ok_or (fst (fetch_pod_events listing_rt (JStr "prod") (JStr "web-1") 15 fresh)) [])),
     snd (fetch_pod_events listing_rt (JStr "prod") (JStr "web-1") 15 fresh)).
Proof.
  apply (fetch_pod_events_bounds_compose listing_rt (JStr "prod") (JStr "web-1") 1 15 fresh);
    [lia | lia | vm_compute; reflexivity].
Defined.

(** X22.  The alert of a structured response is what [extract] returns for
    the payload: [recommend] does not answer with an alert when [extract]
    raises, nor with another record than the extracted one. *)
Theorem recommend_alert_is_extracted (rt : runtime) (payload : dict) (s : state)
    (a : alert_info) (ev : evidence) (text : string) :
  fst (recommend rt payload s) = RespOk a ev text ->
  extract payload = Ok a.
Proof.
  destruct (extract payload) as [info|e] eqn:Hex.
  - destruct (client_effect_gather rt info s) as ([[[psum evs] logs]|e] & tr & ms & Hg & _).
    + destruct (complete_counted rt
                  (user_prompt rt info psum evs logs
                     (retrieve (load_runbooks rt) (runbook_query info) 2000))
                  (after s tr ms)) as (text' & m & Hc & _).
      destruct (recommend_run rt payload s _ _ info _ _ _ _ Hex Hg Hc)
        as [(e & _ & Hr)|(_ & Hr)]; rewrite Hr; simpl; intros H; inversion H; reflexivity.
    + rewrite (recommend_gather_raises rt payload s _ info e Hex Hg). discriminate.
  - rewrite (recommend_extract_raises rt payload s e Hex). discriminate.
Qed.

Lemma recommend_alert_is_extracted_witness :
  extract [] = Ok default_alert.
Proof.
  apply (recommend_alert_is_extracted unreachable_rt [] fresh default_alert no_evidence
           "check the pod").
  reflexivity.
Defined.
